(** * The chat gateway of src/services/chatAPI.ts

    A shallow embedding of the browser-side chat client: the identity
    lookup, the token-rotation and auth-failure handlers, [sendMessage]
    with its single, selected and combined paths, and the uniform
    forwarding operations.

    What the TypeScript does through the browser is made explicit:
    - [localStorage] is a finite map from keys to strings;
    - every observable action (a [fetch] being issued, a promise being
      awaited, a body being read, a storage call, a dispatched DOM event,
      a [console.error]) is appended to a trace, in program order;
    - an [async] function is a [Task]: it reads the host, threads the
      storage, emits a trace and either returns or throws.

    One call is followed from start to end; other operations that may be
    in flight at the same time are not interleaved with it. *)

From stdpp Require Import base strings gmap list pretty.

Local Open Scope string_scope.
Local Open Scope list_scope.

(** ** Data *)

(** The line feed of the template literals. *)
Definition LF : string :=
  String (Ascii.Ascii false true false true false false false false) EmptyString.

(** The two base URLs imported from ../App, kept symbolic. *)
Inductive BaseUrl : Type := Auth_Base_URL | Guidance_Base_URL.

(** A URL as the code builds it: a base, the path appended to it by the
    template literal, and the query pairs appended through
    [url.searchParams.append], in order. *)
Record Url : Type := mkUrl {
  base : BaseUrl;
  path : string;
  searchParams : list (string * string)
}.

Inductive Method : Type := GET | POST.

Inductive FeedbackType : Type := like | dislike.

(** The argument of [JSON.stringify], per call site. A member whose value
    is [undefined] is not serialised, [null] is: both are [None] here, the
    difference is not looked at by any operation of the module. *)
Inductive RequestBody : Type :=
| NoBody
| ChatRequest (message session_id : string) (user_id : option string)
    (guidance_filter : option string)
| SessionRequest (user_id : option string)
| FeedbackRequest (session_id : string) (message_index : Z)
    (feedback_type : FeedbackType) (user_id : option string).

Record Request : Type := mkRequest {
  url : Url;
  method : Method;
  headers : list (string * string);
  body : RequestBody
}.

(** Modelled from the spec: [ChatMessage] is declared in ../utils/types,
    which is not under src/; the spec has it as the element of an ordered
    sequence and the module never looks inside one, so a message is kept
    as its JSON text. *)
Record ChatMessage : Type := mkChatMessage { raw : string }.

(** Modelled from the spec: [ChatResponse] is declared in ../utils/types,
    which is not under src/; the spec gives it a response text, a
    conversation history and a session id. It is read here the way the
    code reads a parsed body: every member may be missing ([None]), which
    is what the [?.] and [||] guards of the combination cater for. *)
Record ChatResponse : Type := mkChatResponse {
  response : option string;
  conversation_history : option (list ChatMessage);
  session_id : option string
}.

(** What [response.json()] resolves to, at the types the module reads it:
    [null], the profile object of /auth/me, a chat payload, or any other
    object (kept as its JSON text). *)
Inductive Json : Type :=
| JNull
| JProfile (email : option string)
| JChat (r : ChatResponse)
| JOther (text : string).

(** A thrown value: an [Error] built by the module itself, or a value
    thrown by the platform, known by what [String(e)] gives. *)
Inductive Exn : Type :=
| JsError (message : string)
| Foreign (rendering : string).

Definition String_ (e : Exn) : string :=
  match e with
  | JsError m => "Error: " +:+ m
  | Foreign r => r
  end.

(** How the network settles a request: the promise rejects, or a response
    arrives with a status, possibly an [x-access-token] header, and a body
    on which [json()] resolves or rejects. *)
Inductive Answer : Type :=
| Rejects (e : Exn)
| Responds (status : N) (x_access_token : option string) (payload : Exn + Json).

Record Response : Type := mkResponse {
  resp_url : Url;
  status : N;
  header_x_access_token : option string;
  payload : Exn + Json
}.

(** [response.ok]: the status is in the range 200-299. *)
Definition is_ok (st : N) : bool :=
  ((200 <=? st) && (st <=? 299))%N.

Definition ok (r : Response) : bool := is_ok (status r).

Record Promise : Type := mkPromise {
  request : Request;
  settles : Answer
}.

(** The DOM event handed to [window.dispatchEvent]. *)
Record CustomEvent : Type := mkCustomEvent {
  type : string;
  bubbles : bool;
  cancelable : bool;
  detail_status : N
}.

Inductive Event : Type :=
| EFetch (req : Request)
| EAwait (req : Request)
| EJson (u : Url)
| ESetItem (key value : string)
| ERemoveItem (key : string)
| EDispatch (ev : CustomEvent)
| EConsoleError (label : string) (e : Exn).

(** The surroundings of a call: the role classifier of ../utils/userRole,
    the network, and the two platform calls that the code guards with
    [try]: [localStorage.removeItem] and the [CustomEvent] constructor may
    throw. Platform calls that the code leaves unguarded
    ([localStorage.setItem], the [document.createEvent] path,
    [window.dispatchEvent]) are taken to succeed. *)
Record Host : Type := mkHost {
  isUndergraduate : option string -> bool;
  network : Request -> Answer;
  removeItem_throws : option Exn;
  CustomEvent_throws : option Exn
}.

(** ** Tasks *)

Inductive Outcome (A : Type) : Type :=
| Returned (a : A)
| Thrown (e : Exn).
Arguments Returned {A} a.
Arguments Thrown {A} e.

Record Run (A : Type) : Type := mkRun {
  outcome : Outcome A;
  storage : gmap string string;
  trace : list Event
}.
Arguments mkRun {A} _ _ _.
Arguments outcome {A} _.
Arguments storage {A} _.
Arguments trace {A} _.

Definition Task (A : Type) : Type := Host -> gmap string string -> Run A.

Definition run {A : Type} (t : Task A) (h : Host) (ls : gmap string string) : Run A :=
  t h ls.

Definition ret {A : Type} (a : A) : Task A :=
  fun _ ls => mkRun (Returned a) ls [].

Definition throw {A : Type} (e : Exn) : Task A :=
  fun _ ls => mkRun (Thrown e) ls [].

Definition bind {A B : Type} (t : Task A) (k : A -> Task B) : Task B :=
  fun h ls =>
    let r := t h ls in
    match outcome r with
    | Returned a =>
        let r' := k a h (storage r) in
        mkRun (outcome r') (storage r') (trace r ++ trace r')
    | Thrown e => mkRun (Thrown e) (storage r) (trace r)
    end.

(** [try { t } catch (e) { handler e }]. *)
Definition try_catch {A : Type} (t : Task A) (handler : Exn -> Task A) : Task A :=
  fun h ls =>
    let r := t h ls in
    match outcome r with
    | Returned a => r
    | Thrown e =>
        let r' := handler e h (storage r) in
        mkRun (outcome r') (storage r') (trace r ++ trace r')
    end.

Notation "x <- t ;; k" := (bind t (fun x => k))
  (at level 100, t at next level, right associativity).
Notation "t ;;; k" := (bind t (fun _ => k))
  (at level 100, right associativity).

Definition emit (e : Event) : Task unit :=
  fun _ ls => mkRun (Returned tt) ls [e].

Definition host : Task Host :=
  fun h ls => mkRun (Returned h) ls [].

(** ** Platform primitives *)

Definition localStorage_setItem (key value : string) : Task unit :=
  fun _ ls => mkRun (Returned tt) (<[key := value]> ls) [ESetItem key value].

Definition localStorage_removeItem (key : string) : Task unit :=
  fun h ls =>
    match removeItem_throws h with
    | Some e => mkRun (Thrown e) ls [ERemoveItem key]
    | None => mkRun (Returned tt) (delete key ls) [ERemoveItem key]
    end.

(** Modelled from the spec: [getAccessToken] of ./authAPI is not under
    src/; the spec has the AuthToken "held in process-wide storage" and
    "read before every request", and this file stores it under the key
    auth_token. *)
Definition getAccessToken : Task (option string) :=
  fun _ ls => mkRun (Returned (ls !! "auth_token")) ls [].

Definition window_dispatchEvent (ev : CustomEvent) : Task unit :=
  emit (EDispatch ev).

(** [new CustomEvent(type, { detail: { status } })]: neither bubbling nor
    cancelable. *)
Definition new_CustomEvent (ty : string) (st : N) : Task CustomEvent :=
  h <- host ;;
  match CustomEvent_throws h with
  | Some e => throw e
  | None => ret (mkCustomEvent ty false false st)
  end.

(** [document.createEvent("CustomEvent")] followed by
    [initCustomEvent(type, true, true, { status })]. *)
Definition createEvent_initCustomEvent (ty : string) (st : N) : Task CustomEvent :=
  ret (mkCustomEvent ty true true st).

Definition console_error (label : string) (e : Exn) : Task unit :=
  emit (EConsoleError label e).

(** [fetch(url, init)]: the request leaves, the promise is pending. *)
Definition fetch (req : Request) : Task Promise :=
  h <- host ;;
  emit (EFetch req) ;;;
  ret (mkPromise req (network h req)).

(** [await promise]. *)
Definition await (p : Promise) : Task Response :=
  emit (EAwait (request p)) ;;;
  match settles p with
  | Rejects e => throw e
  | Responds st tok js => ret (mkResponse (url (request p)) st tok js)
  end.

(** [await response.json()]. *)
Definition json (r : Response) : Task Json :=
  emit (EJson (resp_url r)) ;;;
  match payload r with
  | inl e => throw e
  | inr j => ret j
  end.

(** ** JavaScript truthiness at the types in use *)

Definition nonempty (s : string) : bool :=
  match s with
  | EmptyString => false
  | String _ _ => true
  end.

(** A string-or-missing value is truthy when present and not empty. *)
Definition truthy (v : option string) : bool :=
  match v with
  | Some s => nonempty s
  | None => false
  end.

(** [a || b] on such values. *)
Definition or_else (a b : option string) : option string :=
  if truthy a then a else b.

(** A parsed body is falsy only when it is [null]. *)
Definition json_truthy (j : Json) : bool :=
  match j with
  | JNull => false
  | _ => true
  end.

(** [j?.response], [j?.conversation_history], [j?.session_id]. *)
Definition get_response (j : Json) : option string :=
  match j with
  | JChat r => response r
  | _ => None
  end.

Definition get_conversation_history (j : Json) : option (list ChatMessage) :=
  match j with
  | JChat r => conversation_history r
  | _ => None
  end.

Definition get_session_id (j : Json) : option string :=
  match j with
  | JChat r => session_id r
  | _ => None
  end.

(** [data.email]: reading a member of [null] throws. *)
Definition get_email (j : Json) : Task (option string) :=
  match j with
  | JNull => throw (Foreign "TypeError: Cannot read properties of null (reading 'email')")
  | JProfile e => ret e
  | _ => ret None
  end.

(** [`Bearer ${token}`]. *)
Definition Bearer (token : option string) : string :=
  "Bearer " +:+ (match token with Some t => t | None => "null" end).

(** ** The module's functions *)

Definition json_headers (token : option string) : list (string * string) :=
  [("Content-Type", "application/json"); ("Authorization", Bearer token)].

Definition auth_headers (token : option string) : list (string * string) :=
  [("Authorization", Bearer token)].

(** [fetchUserEmailFromProfile]: the identity lookup. The header order of
    the source (Authorization first) is kept. *)
Definition fetchUserEmailFromProfile : Task (option string) :=
  token <- getAccessToken ;;
  if negb (truthy token) then ret None
  else
    try_catch
      (p <- fetch (mkRequest (mkUrl Auth_Base_URL "/auth/me" []) GET
                     [("Authorization", Bearer token);
                      ("Content-Type", "application/json")] NoBody) ;;
       response <- await p ;;
       if negb (ok response) then ret None
       else
         data <- json response ;;
         email <- get_email data ;;
         ret (if truthy email then email else None))
      (fun _ => ret None).

(** [updateAccessTokenFromResponse]. *)
Definition updateAccessTokenFromResponse (response : Response) : Task unit :=
  let newToken := header_x_access_token response in
  if truthy newToken then
    match newToken with
    | Some t => localStorage_setItem "auth_token" t
    | None => ret tt
    end
  else ret tt.

(** [handleAuthError]. *)
Definition handleAuthError (response : Response) : Task unit :=
  if ((status response =? 401) || (status response =? 403))%N then
    try_catch (localStorage_removeItem "auth_token") (fun _ => ret tt) ;;;
    try_catch
      (ev <- new_CustomEvent "auth:logout" (status response) ;;
       window_dispatchEvent ev)
      (fun _ =>
         event <- createEvent_initCustomEvent "auth:logout" (status response) ;;
         window_dispatchEvent event)
  else ret tt.

(** The rotation and auth-failure handling that the methods of
    [ApiService] run on a response, in this order. *)
Definition rotate_and_check (response : Response) : Task unit :=
  updateAccessTokenFromResponse response ;;;
  handleAuthError response.

Definition HTTP_error (st : N) : Exn :=
  JsError ("HTTP error! status: " +:+ pretty st).

(** The POST to a chat endpoint; the bearer is read when the request is
    built. *)
Definition post_chat (endpoint : string) (postBodyBase : RequestBody) : Task Promise :=
  token <- getAccessToken ;;
  fetch (mkRequest (mkUrl Guidance_Base_URL endpoint []) POST
           (json_headers token) postBodyBase).

(** The object literal built when a side did not succeed. *)
Definition placeholder (text sessionId : string) : Json :=
  JChat (mkChatResponse (Some text) (Some []) (Some sessionId)).

(** One of the two [if (promise) { try { ... } catch (e) { ... } }] blocks
    of [sendMessage]; the blocks differ in the label only. *)
Definition settle_side (side : string) (sessionId : string)
    (promise : option Promise) : Task Json :=
  match promise with
  | None => ret JNull
  | Some p =>
      try_catch
        (resp <- await p ;;
         updateAccessTokenFromResponse resp ;;;
         handleAuthError resp ;;;
         if ok resp then json resp
         else ret (placeholder (side +:+ " request failed: " +:+ pretty (status resp))
                     sessionId))
        (fun e => ret (placeholder (side +:+ " request error: " +:+ String_ e) sessionId))
  end.

(** [v || "(no response)"]. *)
Definition text_or_default (v : option string) : string :=
  match or_else v (Some "(no response)") with
  | Some s => s
  | None => "(no response)"
  end.

(** [...(v || [])]. *)
Definition history_or_empty (v : option (list ChatMessage)) : list ChatMessage :=
  match v with
  | Some l => l
  | None => []
  end.

(** The object literal [combinedResponse]. *)
Definition combinedResponse (ruhRespJson ugcRespJson : Json) (sessionId : string)
    : ChatResponse :=
  mkChatResponse
    (Some ("[RUH]" +:+ LF +:+ text_or_default (get_response ruhRespJson)
           +:+ LF +:+ LF +:+ "[UGC]" +:+ LF
           +:+ text_or_default (get_response ugcRespJson)))
    (Some (history_or_empty (get_conversation_history ruhRespJson)
           ++ history_or_empty (get_conversation_history ugcRespJson)))
    (or_else (get_session_id ruhRespJson)
       (or_else (get_session_id ugcRespJson) (Some sessionId))).

(** The three returns that close the non-undergraduate path. *)
Definition select_or_combine (ruhRespJson ugcRespJson : Json) (sessionId : string)
    : Json :=
  if json_truthy ruhRespJson && negb (json_truthy ugcRespJson) then ruhRespJson
  else if json_truthy ugcRespJson && negb (json_truthy ruhRespJson) then ugcRespJson
  else JChat (combinedResponse ruhRespJson ugcRespJson sessionId).

(** The requests issued for the value of [onlyUseRuh]. *)
Definition dispatch_selected (onlyUseRuh : option bool) (postBodyBase : RequestBody)
    : Task (option Promise * option Promise) :=
  match onlyUseRuh with
  | None =>
      ruhPromise <- post_chat "/ruh/chat" postBodyBase ;;
      ugcPromise <- post_chat "/ugc/chat" postBodyBase ;;
      ret (Some ruhPromise, Some ugcPromise)
  | Some true =>
      ruhPromise <- post_chat "/ruh/chat" postBodyBase ;;
      ret (Some ruhPromise, None)
  | Some false =>
      ugcPromise <- post_chat "/ugc/chat" postBodyBase ;;
      ret (None, Some ugcPromise)
  end.

(** The body of the [try] of [sendMessage], once the identity is known. *)
Definition sendMessage_try (userEmail : option string) (postBodyBase : RequestBody)
    (sessionId : string) (onlyUseRuh : option bool) : Task Json :=
  h <- host ;;
  let isUG := isUndergraduate h userEmail in
  if isUG then
    p <- post_chat "/ruh/chat" postBodyBase ;;
    response <- await p ;;
    updateAccessTokenFromResponse response ;;;
    handleAuthError response ;;;
    if negb (ok response) then throw (HTTP_error (status response))
    else json response
  else
    promises <- dispatch_selected onlyUseRuh postBodyBase ;;
    ruhRespJson <- settle_side "RUH" sessionId (fst promises) ;;
    ugcRespJson <- settle_side "UGC" sessionId (snd promises) ;;
    ret (select_or_combine ruhRespJson ugcRespJson sessionId).

Definition postBodyBase_of (message sessionId : string) (userEmail guidanceFilter : option string)
    : RequestBody :=
  ChatRequest message sessionId userEmail
    (if truthy guidanceFilter then guidanceFilter else None).

(** [ApiService.sendMessage]; a missing [sessionId] takes the default. *)
Definition sendMessage (message : string) (sessionId_arg : option string)
    (guidanceFilter : option string) (onlyUseRuh : option bool) : Task Json :=
  let sessionId := default "default" sessionId_arg in
  userEmail <- fetchUserEmailFromProfile ;;
  let postBodyBase := postBodyBase_of message sessionId userEmail guidanceFilter in
  try_catch
    (sendMessage_try userEmail postBodyBase sessionId onlyUseRuh)
    (fun error => console_error "Error sending message:" error ;;; throw error).

(** [userId || (await fetchUserEmailFromProfile())]. *)
Definition resolve_user (userId : option string) : Task (option string) :=
  if truthy userId then ret userId else fetchUserEmailFromProfile.

(** [if (v) url.searchParams.append(name, v)]. *)
Definition append_if_present (name : string) (v : option string)
    (params : list (string * string)) : list (string * string) :=
  if truthy v then
    match v with
    | Some s => params ++ [(name, s)]
    | None => params
    end
  else params.

(** The tail shared by the forwarding operations: await the response, run
    rotation and auth-failure handling, throw on a non-success status. *)
Definition checked (p : Promise) : Task Response :=
  response <- await p ;;
  updateAccessTokenFromResponse response ;;;
  handleAuthError response ;;;
  if negb (ok response) then throw (HTTP_error (status response))
  else ret response.

(** [catch (error) { console.error(label, error); throw error; }]. *)
Definition logged {A : Type} (label : string) (t : Task A) : Task A :=
  try_catch t (fun error => console_error label error ;;; throw error).

(** [ApiService.createNewChatSession]. *)
Definition createNewChatSession (userId : option string) : Task Json :=
  logged "Error creating new chat session:"
    (resolvedUser <- resolve_user userId ;;
     token <- getAccessToken ;;
     p <- fetch (mkRequest (mkUrl Guidance_Base_URL "/chat/session" []) POST
                   (json_headers token) (SessionRequest resolvedUser)) ;;
     response <- checked p ;;
     json response).

(** [ApiService.sendFeedback]. *)
Definition sendFeedback (sessionId : string) (messageIndex : Z)
    (feedbackType : FeedbackType) (userId : option string) : Task unit :=
  logged "Error sending feedback:"
    (token <- getAccessToken ;;
     p <- fetch (mkRequest (mkUrl Guidance_Base_URL "/feedback" []) POST
                   (json_headers token)
                   (FeedbackRequest sessionId messageIndex feedbackType userId)) ;;
     response <- checked p ;;
     ret tt).

(** [ApiService.getChatHistory]; a missing [sessionId] takes the default. *)
Definition getChatHistory (sessionId_arg : option string) (userId : option string)
    : Task Json :=
  let sessionId := default "default" sessionId_arg in
  logged "Error getting chat history:"
    (resolvedUser <- resolve_user userId ;;
     let u := mkUrl Guidance_Base_URL ("/chat/" +:+ sessionId +:+ "/history")
                (append_if_present "user_id" resolvedUser []) in
     token <- getAccessToken ;;
     p <- fetch (mkRequest u GET (auth_headers token) NoBody) ;;
     response <- checked p ;;
     json response).

(** [ApiService.healthCheck]. *)
Definition healthCheck : Task Json :=
  logged "Error checking health:"
    (token <- getAccessToken ;;
     p <- fetch (mkRequest (mkUrl Guidance_Base_URL "/health" []) GET
                   (auth_headers token) NoBody) ;;
     response <- checked p ;;
     json response).

(** [ApiService.getChatSessions]. *)
Definition getChatSessions (userId : option string) : Task Json :=
  logged "Error getting chat sessions:"
    (resolvedUser <- resolve_user userId ;;
     let u := mkUrl Guidance_Base_URL "/chat/sessions"
                (append_if_present "user_id" resolvedUser []) in
     token <- getAccessToken ;;
     p <- fetch (mkRequest u GET (auth_headers token) NoBody) ;;
     response <- checked p ;;
     json response).

(** [ApiService.routeLatest]; a missing [sessionId] takes the default. *)
Definition routeLatest (sessionId_arg : option string) (userId : option string)
    : Task Json :=
  let sessionId := default "default" sessionId_arg in
  logged "Error routing latest message:"
    (resolvedUser <- resolve_user userId ;;
     h <- host ;;
     let prefix := if isUndergraduate h resolvedUser then "ruh" else "ugc" in
     let u := mkUrl Guidance_Base_URL ("/" +:+ prefix +:+ "/chat/route")
                (append_if_present "user_id" resolvedUser
                   (append_if_present "session_id" (Some sessionId) [])) in
     token <- getAccessToken ;;
     p <- fetch (mkRequest u POST (auth_headers token) NoBody) ;;
     response <- checked p ;;
     json response).

(** ** Reading a trace *)

(** The requests issued, in order. *)
Definition fetches (tr : list Event) : list Request :=
  omap (fun e => match e with EFetch r => Some r | _ => None end) tr.

(** The requests sent to the chat endpoints of the guidance service. *)
Definition is_chat_call (r : Request) : bool :=
  match base (url r) with
  | Guidance_Base_URL =>
      bool_decide (path (url r) = "/ruh/chat") || bool_decide (path (url r) = "/ugc/chat")
  | Auth_Base_URL => false
  end.

Definition chat_calls (tr : list Event) : list Request :=
  filter (fun r => is_chat_call r = true) (fetches tr).

(** The events dispatched on [window], in order. *)
Definition dispatched (tr : list Event) : list CustomEvent :=
  omap (fun e => match e with EDispatch ev => Some ev | _ => None end) tr.

(** The errors written with [console.error], in order. *)
Definition console_errors (tr : list Event) : list (string * Exn) :=
  omap (fun e => match e with EConsoleError l x => Some (l, x) | _ => None end) tr.

(** The URLs of the responses whose body was read, in order. *)
Definition body_reads (tr : list Event) : list Url :=
  omap (fun e => match e with EJson u => Some u | _ => None end) tr.

(** The value of a request's Authorization header. *)
Definition authorization (req : Request) : option string :=
  snd <$> List.find (fun kv => bool_decide (fst kv = "Authorization")) (headers req).

(** The request of the identity lookup, for a token. *)
Definition profile_request (token : option string) : Request :=
  mkRequest (mkUrl Auth_Base_URL "/auth/me" []) GET
    [("Authorization", Bearer token); ("Content-Type", "application/json")] NoBody.

(** Status 401 or 403. *)
Definition is_auth_failure (st : N) : bool := ((st =? 401) || (st =? 403))%N.

(** The logout event that the answer to a request brings about, if any. *)
Definition logout_events (h : Host) (req : Request) : list CustomEvent :=
  match network h req with
  | Rejects _ => []
  | Responds st _ _ =>
      if is_auth_failure st then
        [if CustomEvent_throws h is Some _
         then mkCustomEvent "auth:logout" true true st
         else mkCustomEvent "auth:logout" false false st]
      else []
  end.

(** A request that the network answers with a given status. *)
Definition answered_with (h : Host) (req : Request) (st : N) : Prop :=
  exists tok js, network h req = Responds st tok js.

(** A run that throws the HTTP error of a status, writes it once to the
    console under a label, and leaves the body of a request unread. *)
Definition fails_with {A : Type} (st : N) (label : string) (req : Request) (r : Run A)
    : Prop :=
  outcome r = Thrown (JsError ("HTTP error! status: " +:+ pretty st)) /\
  console_errors (trace r) = [(label, JsError ("HTTP error! status: " +:+ pretty st))] /\
  url req ∉ body_reads (trace r).

(** ** Summaries of a run

    What the functions above do, read off the host: the lemmas on running
    tasks prove that the runs agree with these summaries. *)

(** The events that rotation and auth-failure handling leave for a
    response: they depend on the response and the host only. *)
Definition rotation_events (h : Host) (resp : Response) : list Event :=
  trace (run (rotate_and_check resp) h ∅).

(** The identity that the lookup resolves to. *)
Definition resolved_identity (h : Host) (ls : gmap string string) : option string :=
  match outcome (run fetchUserEmailFromProfile h ls) with
  | Returned email => email
  | Thrown _ => None
  end.

(** The chat request that [sendMessage] builds for an endpoint. *)
Definition chat_request (endpoint : string) (ls : gmap string string)
    (message : string) (sessionId_arg : option string)
    (userEmail guidanceFilter : option string) : Request :=
  mkRequest (mkUrl Guidance_Base_URL endpoint []) POST
    (json_headers (ls !! "auth_token"))
    (postBodyBase_of message (default "default" sessionId_arg) userEmail guidanceFilter).

(** What a side's block leaves in its variable, from how the network
    settled the request. *)
Definition side_result (side sessionId : string) (a : Answer) : Json :=
  match a with
  | Rejects e => placeholder (side +:+ " request error: " +:+ String_ e) sessionId
  | Responds st _ js =>
      if is_ok st then
        match js with
        | inl e => placeholder (side +:+ " request error: " +:+ String_ e) sessionId
        | inr j => j
        end
      else placeholder (side +:+ " request failed: " +:+ pretty st) sessionId
  end.

(** How a call ends that sends one request, throws on a failure and
    returns the parsed body otherwise. *)
Definition single_outcome (a : Answer) : Outcome Json :=
  match a with
  | Rejects e => Thrown e
  | Responds st _ js =>
      if is_ok st then
        match js with
        | inl e => Thrown e
        | inr j => Returned j
        end
      else Thrown (HTTP_error st)
  end.

(** The line that the outer [catch] logs before it throws again. *)
Definition logged_events {A : Type} (label : string) (o : Outcome A) : list Event :=
  match o with
  | Returned _ => []
  | Thrown e => [EConsoleError label e]
  end.

(** The value of [resolvedUser] and the events of its resolution. *)
Definition resolved_user (h : Host) (ls : gmap string string) (userId : option string)
    : option string :=
  if truthy userId then userId else resolved_identity h ls.

Definition resolve_events (h : Host) (ls : gmap string string) (userId : option string)
    : list Event :=
  if truthy userId then [] else trace (run fetchUserEmailFromProfile h ls).

(** The requests of the forwarding operations, for the token in store. *)
Definition session_request (ls : gmap string string) (user : option string) : Request :=
  mkRequest (mkUrl Guidance_Base_URL "/chat/session" []) POST
    (json_headers (ls !! "auth_token")) (SessionRequest user).

Definition feedback_request (ls : gmap string string) (sessionId : string)
    (messageIndex : Z) (feedbackType : FeedbackType) (userId : option string) : Request :=
  mkRequest (mkUrl Guidance_Base_URL "/feedback" []) POST
    (json_headers (ls !! "auth_token"))
    (FeedbackRequest sessionId messageIndex feedbackType userId).

Definition history_request (ls : gmap string string) (sessionId : option string)
    (user : option string) : Request :=
  mkRequest
    (mkUrl Guidance_Base_URL ("/chat/" +:+ default "default" sessionId +:+ "/history")
       (append_if_present "user_id" user []))
    GET (auth_headers (ls !! "auth_token")) NoBody.

Definition health_request (ls : gmap string string) : Request :=
  mkRequest (mkUrl Guidance_Base_URL "/health" []) GET
    (auth_headers (ls !! "auth_token")) NoBody.

Definition sessions_request (ls : gmap string string) (user : option string) : Request :=
  mkRequest
    (mkUrl Guidance_Base_URL "/chat/sessions" (append_if_present "user_id" user []))
    GET (auth_headers (ls !! "auth_token")) NoBody.

Definition route_request (h : Host) (ls : gmap string string) (sessionId : option string)
    (user : option string) : Request :=
  mkRequest
    (mkUrl Guidance_Base_URL
       ("/" +:+ (if isUndergraduate h user then "ruh" else "ugc") +:+ "/chat/route")
       (append_if_present "user_id" user
          (append_if_present "session_id" (Some (default "default" sessionId)) [])))
    POST (auth_headers (ls !! "auth_token")) NoBody.

(** The [user_id] that a request carries, in its body or in its query. *)
Definition user_id_of (req : Request) : option string :=
  match body req with
  | ChatRequest _ _ u _ => u
  | SessionRequest u => u
  | FeedbackRequest _ _ _ u => u
  | NoBody => snd <$> List.find (fun kv => bool_decide (fst kv = "user_id"))
                        (searchParams (url req))
  end.

(** Whether a side is requested for a value of [onlyUseRuh]. *)
Definition ruh_selected (onlyUseRuh : option bool) : bool :=
  match onlyUseRuh with
  | Some false => false
  | _ => true
  end.

Definition ugc_selected (onlyUseRuh : option bool) : bool :=
  match onlyUseRuh with
  | Some true => false
  | _ => true
  end.

(** The value of [ruhRespJson] or [ugcRespJson] when the combination is
    reached: [null] for a side that was not requested. *)
Definition slot (selected : bool) (side sessionId : string) (a : Answer) : Json :=
  if selected then side_result side sessionId a else JNull.

(** A call that did not succeed: the promise rejected, the status is not a
    success, or the body could not be parsed. *)
Definition failed (a : Answer) : bool :=
  match a with
  | Rejects _ => true
  | Responds st _ js => negb (is_ok st) || (if js is inl _ then true else false)
  end.

(** What follows the arrival of a response, up to and including the read
    of its body. *)
Definition arrival_events (h : Host) (req : Request) : list Event :=
  EAwait req ::
  match network h req with
  | Rejects _ => []
  | Responds st tok js => rotation_events h (mkResponse (url req) st tok js)
  end.

Definition body_events (h : Host) (req : Request) : list Event :=
  match network h req with
  | Rejects _ => []
  | Responds st _ _ => if is_ok st then [EJson (url req)] else []
  end.

(** The storage once the answer to a request has been awaited and
    handled. *)
Definition after_arrival (h : Host) (req : Request) (ls : gmap string string)
    : gmap string string :=
  match network h req with
  | Rejects _ => ls
  | Responds st tok js =>
      storage (run (rotate_and_check (mkResponse (url req) st tok js)) h ls)
  end.

(** The events of one side of [sendMessage], when it is requested. *)
Definition side_events (selected : bool) (h : Host) (req : Request) : list Event :=
  if selected then arrival_events h req ++ body_events h req else [].

(** A trace in which every awaited response is followed at once by its
    rotation and auth-failure handling, and a body is read only right
    after that handling. *)
Inductive audited (h : Host) : list Event -> Prop :=
| audited_nil : audited h []
| audited_response req st tok js reads rest :
    network h req = Responds st tok js ->
    reads = [] \/ reads = [EJson (url req)] ->
    audited h rest ->
    audited h (EAwait req :: rotation_events h (mkResponse (url req) st tok js)
                 ++ reads ++ rest)
| audited_rejected req e rest :
    network h req = Rejects e ->
    audited h rest ->
    audited h (EAwait req :: rest)
| audited_other e rest :
    match e with EAwait _ | EJson _ => False | _ => True end ->
    audited h rest ->
    audited h (e :: rest).

(** The events that the identity lookup may leave: it talks to the auth
    service, and touches neither the storage nor the window. *)
Definition lookup_event (e : Event) : Prop :=
  match e with
  | EFetch r | EAwait r => base (url r) = Auth_Base_URL
  | EJson u => base u = Auth_Base_URL
  | _ => False
  end.

(** The events that rotation and auth-failure handling may leave. *)
Definition handling_event (e : Event) : Prop :=
  match e with
  | ESetItem _ _ | ERemoveItem _ | EDispatch _ => True
  | _ => False
  end.

(** ** The claims as the specification words them *)

(** The two texts under their labelled headers, RUH first. *)
Definition labelled_concatenation (ruhText ugcText : string) : string :=
  "[RUH]" +:+ LF +:+ ruhText +:+ LF +:+ LF +:+ "[UGC]" +:+ LF +:+ ugcText.

(** The first non-empty string of a list of candidates, [last] when there
    is none. *)
Fixpoint first_nonempty (candidates : list (option string)) (last : string) : string :=
  match candidates with
  | [] => last
  | Some s :: rest => if nonempty s then s else first_nonempty rest last
  | None :: rest => first_nonempty rest last
  end.

(** A missing text read as the empty text. *)
Definition text_of (v : option string) : string := default EmptyString v.

(** A text as the combination shows it: itself, or the literal
    (no response) when it is missing or empty. *)
Definition shown_text (v : option string) : string :=
  if truthy v then text_of v else "(no response)".

(** ** Scenarios *)

(** A network that answers by endpoint. *)
Definition demo_network (me ruh ugc others : Answer) (r : Request) : Answer :=
  if bool_decide (path (url r) = "/auth/me") then me
  else if bool_decide (path (url r) = "/ruh/chat") then ruh
  else if bool_decide (path (url r) = "/ugc/chat") then ugc
  else others.

(** Staff and students are told apart by the mail domain here. *)
Definition demo_classifier (identity : option string) : bool :=
  bool_decide (identity = Some "ug@stu.example").

Definition demo_host (me ruh ugc : Answer) : Host :=
  mkHost demo_classifier (demo_network me ruh ugc (Responds 200 None (inr (JOther "{}"))))
    None None.

Definition profile_of (email : string) : Answer :=
  Responds 200 None (inr (JProfile (Some email))).

Definition staff : Answer := profile_of "staff@uni.example".
Definition student : Answer := profile_of "ug@stu.example".

Definition chat_ok (text : string) (sid : string) : Answer :=
  Responds 200 None
    (inr (JChat (mkChatResponse (Some text) (Some [mkChatMessage text]) (Some sid)))).

Definition signed_in : gmap string string := {[ "auth_token" := "T1" ]}.

(** A signed-in staff member; every service answers. *)
Definition idle_host : Host :=
  demo_host staff (chat_ok "r" "s1") (chat_ok "u" "s2").

(** The auth service turns the lookup down with a 401 and sends a fresh
    token along. *)
Definition stale_lookup_host : Host :=
  demo_host (Responds 401 (Some "T2") (inr JNull)) (chat_ok "r" "s1") (chat_ok "u" "s2").

(** RUH answers 403 with a fresh token, UGC answers with another one. *)
Definition rotating_host : Host :=
  demo_host staff (Responds 403 (Some "T2") (inr JNull))
    (Responds 200 (Some "T3")
       (inr (JChat (mkChatResponse (Some "ok") (Some []) (Some "s2"))))).

(** A browser in which [localStorage.removeItem] and the [CustomEvent]
    constructor both throw. *)
Definition broken_platform_host : Host :=
  mkHost demo_classifier
    (demo_network staff (chat_ok "r" "s1") (chat_ok "u" "s2")
       (Responds 403 (Some "T2") (inr JNull)))
    (Some (Foreign "SecurityError: The operation is insecure."))
    (Some (Foreign "TypeError: CustomEvent is not a constructor")).

(** The guidance service answers /health with a 403 and a fresh token. *)
Definition expired_host : Host :=
  mkHost demo_classifier
    (demo_network staff (chat_ok "r" "s1") (chat_ok "u" "s2")
       (Responds 403 (Some "T2") (inr JNull)))
    None None.

(** Nobody is signed in, or the token in store is the empty string. *)
Definition signed_out : gmap string string := ∅.
Definition blank_token : gmap string string := {[ "auth_token" := EmptyString ]}.

(** A store that also holds a key of another part of the application. *)
Definition themed : gmap string string :=
  <["theme" := "dark"]> signed_in.

(** The guidance service answers /health with a 500 and a fresh token. *)
Definition failing_rotating_host : Host :=
  mkHost demo_classifier
    (demo_network staff (chat_ok "r" "s1") (chat_ok "u" "s2")
       (Responds 500 (Some "T2") (inr JNull)))
    None None.

(** A staff member asks for the university documents only, and the RUH
    service answers 200 with the body null. *)
Definition null_body_host : Host :=
  demo_host staff (Responds 200 None (inr JNull)) (chat_ok "unused" "s2").

(** Both services answer; the RUH text is empty. *)
Definition empty_text_host : Host :=
  demo_host staff
    (Responds 200 None
       (inr (JChat (mkChatResponse (Some EmptyString) (Some [mkChatMessage "q"]) (Some "s1")))))
    (chat_ok "ok" "s2").

(** The RUH service is down with a 503, the UGC service answers ok. *)
Definition ruh_down_host : Host :=
  demo_host staff (Responds 503 None (inr JNull)) (chat_ok "ok" "s2").

(** * Properties *)

(** ** Running tasks *)

Lemma run_bind {A B} (t : Task A) (k : A -> Task B) h ls :
  run (bind t k) h ls =
  match outcome (run t h ls) with
  | Returned a =>
      let r' := run (k a) h (storage (run t h ls)) in
      mkRun (outcome r') (storage r') (trace (run t h ls) ++ trace r')
  | Thrown e => mkRun (Thrown e) (storage (run t h ls)) (trace (run t h ls))
  end.
Proof. reflexivity. Qed.

Lemma run_try_catch {A} (t : Task A) (k : Exn -> Task A) h ls :
  run (try_catch t k) h ls =
  match outcome (run t h ls) with
  | Returned a => run t h ls
  | Thrown e =>
      let r' := run (k e) h (storage (run t h ls)) in
      mkRun (outcome r') (storage r') (trace (run t h ls) ++ trace r')
  end.
Proof. reflexivity. Qed.

Lemma run_eta {A} (r : Run A) : mkRun (outcome r) (storage r) (trace r) = r.
Proof. by destruct r. Qed.

(** What rotation and auth-failure handling do, case by case. *)
Lemma rotate_and_check_cases h resp ls :
  run (rotate_and_check resp) h ls =
  mkRun (Returned tt)
    (let rotated := if truthy (header_x_access_token resp)
                    then <["auth_token" := text_of (header_x_access_token resp)]> ls
                    else ls in
     if is_auth_failure (status resp) then
       if removeItem_throws h is Some _ then rotated else delete "auth_token" rotated
     else rotated)
    ((if truthy (header_x_access_token resp)
      then [ESetItem "auth_token" (text_of (header_x_access_token resp))] else [])
     ++ (if is_auth_failure (status resp) then
           [ERemoveItem "auth_token";
            EDispatch (if CustomEvent_throws h is Some _
                       then mkCustomEvent "auth:logout" true true (status resp)
                       else mkCustomEvent "auth:logout" false false (status resp))]
         else [])).
Proof.
  destruct resp as [u st tok pl], h as [cls net re ce].
  unfold rotate_and_check, updateAccessTokenFromResponse, handleAuthError, is_auth_failure.
  cbn [status header_x_access_token removeItem_throws CustomEvent_throws].
  destruct tok as [[|c t]|], ((st =? 401) || (st =? 403))%N, re, ce; reflexivity.
Qed.

(** Rotation and auth-failure handling never throw, and what they emit
    does not depend on the storage. *)
Lemma rotate_and_check_run h resp ls :
  exists ls', run (rotate_and_check resp) h ls
              = mkRun (Returned tt) ls' (rotation_events h resp).
Proof.
  unfold rotation_events. rewrite !rotate_and_check_cases. cbn [trace]. eauto.
Qed.

Lemma fetch_run h ls req :
  run (fetch req) h ls = mkRun (Returned (mkPromise req (network h req))) ls [EFetch req].
Proof. reflexivity. Qed.

Lemma post_chat_run h ls endpoint b :
  run (post_chat endpoint b) h ls =
  let req := mkRequest (mkUrl Guidance_Base_URL endpoint []) POST
               (json_headers (ls !! "auth_token")) b in
  mkRun (Returned (mkPromise req (network h req))) ls [EFetch req].
Proof. reflexivity. Qed.

Lemma run_bind_assoc {A B C} (t : Task A) (k1 : A -> Task B) (k2 : B -> Task C) h ls :
  run (bind (bind t k1) k2) h ls = run (bind t (fun a => bind (k1 a) k2)) h ls.
Proof.
  unfold run, bind. destruct (outcome (t h ls)) as [a|e]; simpl; [|done].
  destruct (outcome (k1 a h (storage (t h ls)))); simpl; [|done].
  by rewrite app_assoc.
Qed.

(** The pair of calls that follows every awaited response of the service. *)
Lemma rotate_then {A} h resp ls (k : Task A) :
  run (updateAccessTokenFromResponse resp ;;; handleAuthError resp ;;; k) h ls =
  let r' := run k h (storage (run (rotate_and_check resp) h ls)) in
  mkRun (outcome r') (storage r') (rotation_events h resp ++ trace r').
Proof.
  rewrite <- (run_bind_assoc (updateAccessTokenFromResponse resp)
                (fun _ => handleAuthError resp) (fun _ => k)).
  fold (rotate_and_check resp). rewrite run_bind.
  destruct (rotate_and_check_run h resp ls) as [ls' ->]. reflexivity.
Qed.

Lemma await_run h ls p :
  run (await p) h ls =
  mkRun (match settles p with
         | Rejects e => Thrown e
         | Responds st tok js => Returned (mkResponse (url (request p)) st tok js)
         end) ls [EAwait (request p)].
Proof. unfold await, run, bind, emit, throw, ret. simpl. by destruct (settles p). Qed.

Lemma checked_run h ls req :
    run (checked (mkPromise req (network h req))) h ls =
    mkRun (match network h req with
           | Rejects e => Thrown e
           | Responds st tok js =>
               if is_ok st then Returned (mkResponse (url req) st tok js)
               else Thrown (HTTP_error st)
           end) (after_arrival h req ls) (arrival_events h req).
Proof.
  unfold checked, arrival_events, after_arrival.
  rewrite run_bind, await_run. simpl.
  destruct (network h req) as [e|st tok js]; simpl; [eauto|].
  rewrite rotate_then. simpl. unfold ok. simpl.
  destruct (is_ok st); simpl; rewrite app_nil_r; eauto.
Qed.

Lemma json_run h ls r :
  run (json r) h ls =
  mkRun (match payload r with inl e => Thrown e | inr j => Returned j end) ls
    [EJson (resp_url r)].
Proof. unfold json, run, bind, emit, throw, ret. simpl. by destruct (payload r). Qed.

Lemma settle_side_run h ls side sid req :
    run (settle_side side sid (Some (mkPromise req (network h req)))) h ls =
    mkRun (Returned (side_result side sid (network h req))) (after_arrival h req ls)
      (arrival_events h req ++ body_events h req).
Proof.
  unfold settle_side, arrival_events, body_events, side_result, after_arrival.
  rewrite run_try_catch, run_bind, await_run. simpl.
  destruct (network h req) as [e|st tok js]; simpl; [eauto|].
  rewrite rotate_then. simpl. unfold ok. simpl.
  destruct (is_ok st); simpl.
  - destruct js; simpl; rewrite ?app_nil_r; eauto.
  - rewrite !app_nil_r. eauto.
Qed.

(** What the identity lookup does, case by case. *)
Lemma lookup_cases h ls :
  run fetchUserEmailFromProfile h ls =
  let req := profile_request (ls !! "auth_token") in
  if truthy (ls !! "auth_token") then
    match network h req with
    | Rejects _ => mkRun (Returned None) ls [EFetch req; EAwait req]
    | Responds st tok js =>
        if is_ok st then
          mkRun (Returned match js with
                          | inr (JProfile e) => if truthy e then e else None
                          | _ => None
                          end)
            ls [EFetch req; EAwait req; EJson (url req)]
        else mkRun (Returned None) ls [EFetch req; EAwait req]
    end
  else mkRun (Returned None) ls [].
Proof.
  cbv zeta. unfold fetchUserEmailFromProfile, profile_request.
  rewrite run_bind.
  change (run getAccessToken h ls) with (mkRun (Returned (ls !! "auth_token")) ls []).
  cbn [outcome storage trace].
  generalize (ls !! "auth_token"). intros token.
  destruct (truthy token); cbn [negb]; [|reflexivity].
  rewrite run_try_catch, run_bind, fetch_run. cbn [outcome storage trace].
  rewrite run_bind, await_run. cbn [outcome storage trace settles request url].
  destruct (network h _) as [e|st tok js]; [reflexivity|].
  cbv zeta. unfold ok. cbn [status].
  destruct (is_ok st); cbn [negb]; [|reflexivity].
  rewrite run_bind, json_run. cbn [outcome storage trace payload resp_url].
  destruct js as [e|[|e| |]]; try reflexivity.
Qed.

Lemma lookup_run h ls :
  run fetchUserEmailFromProfile h ls =
  mkRun (Returned (resolved_identity h ls)) ls (trace (run fetchUserEmailFromProfile h ls)).
Proof.
  unfold resolved_identity. rewrite lookup_cases. cbv zeta.
  destruct (truthy _); [|done].
  destruct (network h _) as [e|st tok js]; [done|]. by destruct (is_ok st).
Qed.

Lemma lookup_quiet h ls :
  Forall lookup_event (trace (run fetchUserEmailFromProfile h ls)).
Proof.
  rewrite lookup_cases. cbv zeta.
  destruct (truthy _); [|constructor].
  destruct (network h _) as [e|st tok js]; [repeat constructor|].
  destruct (is_ok st); repeat constructor.
Qed.

Lemma lookup_truthy h ls :
  resolved_identity h ls = None \/ truthy (resolved_identity h ls) = true.
Proof.
  unfold resolved_identity. rewrite lookup_cases. cbv zeta.
  destruct (truthy _); [|by left].
  destruct (network h _) as [e|st tok js]; [by left|].
  destruct (is_ok st); [|by left]. cbn [outcome].
  destruct js as [x|[|e| |]]; try by left.
  destruct (truthy e) eqn:E; [by right | by left].
Qed.

Lemma bind_returned {A B} (t : Task A) (k : A -> Task B) h ls a ls' tr :
  run t h ls = mkRun (Returned a) ls' tr ->
  run (bind t k) h ls =
  mkRun (outcome (run (k a) h ls')) (storage (run (k a) h ls'))
    (tr ++ trace (run (k a) h ls')).
Proof. intros H. rewrite run_bind, H. reflexivity. Qed.

Lemma bind_thrown {A B} (t : Task A) (k : A -> Task B) h ls e ls' tr :
  run t h ls = mkRun (Thrown e) ls' tr ->
  run (bind t k) h ls = mkRun (Thrown e) ls' tr.
Proof. intros H. rewrite run_bind, H. reflexivity. Qed.

Lemma try_returned {A} (t : Task A) (k : Exn -> Task A) h ls a ls' tr :
  run t h ls = mkRun (Returned a) ls' tr ->
  run (try_catch t k) h ls = mkRun (Returned a) ls' tr.
Proof. intros H. rewrite run_try_catch, H. reflexivity. Qed.

Lemma try_thrown {A} (t : Task A) (k : Exn -> Task A) h ls e ls' tr :
  run t h ls = mkRun (Thrown e) ls' tr ->
  run (try_catch t k) h ls =
  mkRun (outcome (run (k e) h ls')) (storage (run (k e) h ls'))
    (tr ++ trace (run (k e) h ls')).
Proof. intros H. rewrite run_try_catch, H. reflexivity. Qed.

Lemma host_run h ls : run host h ls = mkRun (Returned h) ls [].
Proof. reflexivity. Qed.

Lemma ret_run {A} (a : A) h ls : run (ret a) h ls = mkRun (Returned a) ls [].
Proof. reflexivity. Qed.

Lemma throw_run {A} e h ls : run (@throw A e) h ls = mkRun (Thrown e) ls [].
Proof. reflexivity. Qed.

Lemma post_chat_returns h ls endpoint b :
  run (post_chat endpoint b) h ls =
  mkRun (Returned (mkPromise (mkRequest (mkUrl Guidance_Base_URL endpoint []) POST
                                (json_headers (ls !! "auth_token")) b)
                     (network h (mkRequest (mkUrl Guidance_Base_URL endpoint []) POST
                                   (json_headers (ls !! "auth_token")) b))))
    ls
    [EFetch (mkRequest (mkUrl Guidance_Base_URL endpoint []) POST
               (json_headers (ls !! "auth_token")) b)].
Proof. reflexivity. Qed.

Lemma settle_side_none h ls side sid :
  run (settle_side side sid None) h ls = mkRun (Returned JNull) ls [].
Proof. reflexivity. Qed.

Ltac run_step :=
  first
    [ erewrite bind_returned by
        first [ apply post_chat_returns | apply settle_side_run | apply settle_side_none
              | apply host_run | apply ret_run | apply lookup_run ]
    | rewrite run_bind_assoc | rewrite ret_run | rewrite throw_run ];
  cbn [outcome storage trace fst snd].

Lemma sendMessage_try_non_undergraduate h ls email b sid onlyUseRuh :
  isUndergraduate h email = false ->
  let ruhReq := mkRequest (mkUrl Guidance_Base_URL "/ruh/chat" []) POST
                  (json_headers (ls !! "auth_token")) b in
  let ugcReq := mkRequest (mkUrl Guidance_Base_URL "/ugc/chat" []) POST
                  (json_headers (ls !! "auth_token")) b in
  let ruh := ruh_selected onlyUseRuh in
  let ugc := ugc_selected onlyUseRuh in
  run (sendMessage_try email b sid onlyUseRuh) h ls =
  mkRun
    (Returned (select_or_combine (slot ruh "RUH" sid (network h ruhReq))
                 (slot ugc "UGC" sid (network h ugcReq)) sid))
    ((if ugc then after_arrival h ugcReq else id)
       ((if ruh then after_arrival h ruhReq else id) ls))
    ((if ruh then [EFetch ruhReq] else []) ++ (if ugc then [EFetch ugcReq] else [])
     ++ side_events ruh h ruhReq ++ side_events ugc h ugcReq).
Proof.
  intros Hug. cbv zeta. unfold sendMessage_try.
  run_step. rewrite Hug. unfold dispatch_selected.
  destruct onlyUseRuh as [[|]|]; repeat run_step;
    cbn [ruh_selected ugc_selected slot side_events id];
    rewrite ?app_nil_r, ?app_nil_l; try reflexivity.
Qed.

Lemma sendMessage_non_undergraduate_run h ls message sessionId guidanceFilter onlyUseRuh :
  isUndergraduate h (resolved_identity h ls) = false ->
  let email := resolved_identity h ls in
  let sid := default "default" sessionId in
  let ruhReq := chat_request "/ruh/chat" ls message sessionId email guidanceFilter in
  let ugcReq := chat_request "/ugc/chat" ls message sessionId email guidanceFilter in
  let ruh := ruh_selected onlyUseRuh in
  let ugc := ugc_selected onlyUseRuh in
  run (sendMessage message sessionId guidanceFilter onlyUseRuh) h ls =
  mkRun
    (Returned (select_or_combine (slot ruh "RUH" sid (network h ruhReq))
                 (slot ugc "UGC" sid (network h ugcReq)) sid))
    ((if ugc then after_arrival h ugcReq else id)
       ((if ruh then after_arrival h ruhReq else id) ls))
    (trace (run fetchUserEmailFromProfile h ls)
     ++ (if ruh then [EFetch ruhReq] else []) ++ (if ugc then [EFetch ugcReq] else [])
     ++ side_events ruh h ruhReq ++ side_events ugc h ugcReq).
Proof.
  intros Hug. cbv zeta. unfold sendMessage.
  run_step.
  erewrite try_returned by (apply sendMessage_try_non_undergraduate, Hug).
  reflexivity.
Qed.

(** ** The undergraduate path *)

Lemma single_request_run h ls req :
  run (response <- await (mkPromise req (network h req)) ;;
       updateAccessTokenFromResponse response ;;;
       handleAuthError response ;;;
       if negb (ok response) then throw (HTTP_error (status response))
       else json response) h ls =
  mkRun (single_outcome (network h req)) (after_arrival h req ls)
    (arrival_events h req ++ body_events h req).
Proof.
  rewrite run_bind, await_run. cbn [outcome storage trace settles request].
  unfold single_outcome, after_arrival, arrival_events, body_events.
  destruct (network h req) as [e|st tok js]; [reflexivity|].
  cbv zeta. rewrite rotate_then. cbv zeta. unfold ok. cbn [status negb].
  destruct (is_ok st); cbn [negb].
  - rewrite json_run. cbn [outcome storage trace payload resp_url].
    destruct js; simpl; by rewrite <- ?app_assoc.
  - rewrite throw_run. simpl. by rewrite !app_nil_r.
Qed.

Lemma logged_run {A} label (t : Task A) h ls :
  run (logged label t) h ls =
  mkRun (outcome (run t h ls)) (storage (run t h ls))
    (trace (run t h ls) ++ logged_events label (outcome (run t h ls))).
Proof.
  unfold logged. rewrite run_try_catch.
  destruct (run t h ls) as [[a|e] ls' tr]; simpl; by rewrite ?app_nil_r.
Qed.

Lemma sendMessage_undergraduate_run h ls message sessionId guidanceFilter onlyUseRuh :
  isUndergraduate h (resolved_identity h ls) = true ->
  let req := chat_request "/ruh/chat" ls message sessionId (resolved_identity h ls)
               guidanceFilter in
  run (sendMessage message sessionId guidanceFilter onlyUseRuh) h ls =
  mkRun (single_outcome (network h req)) (after_arrival h req ls)
    (trace (run fetchUserEmailFromProfile h ls)
     ++ [EFetch req] ++ arrival_events h req ++ body_events h req
     ++ logged_events "Error sending message:" (single_outcome (network h req))).
Proof.
  intros Hug. cbv zeta. unfold sendMessage. run_step.
  fold (logged "Error sending message:"
          (sendMessage_try (resolved_identity h ls)
             (postBodyBase_of message (default "default" sessionId) (resolved_identity h ls)
                guidanceFilter)
             (default "default" sessionId) onlyUseRuh)).
  rewrite logged_run.
  unfold sendMessage_try. run_step. rewrite Hug. run_step.
  rewrite single_request_run. cbn [outcome storage trace].
  unfold chat_request. by rewrite <- !app_assoc.
Qed.

(** ** Reading traces *)

Lemma fetches_app tr1 tr2 : fetches (tr1 ++ tr2) = fetches tr1 ++ fetches tr2.
Proof. apply omap_app. Qed.

Lemma chat_calls_app tr1 tr2 : chat_calls (tr1 ++ tr2) = chat_calls tr1 ++ chat_calls tr2.
Proof. unfold chat_calls. by rewrite fetches_app, filter_app. Qed.

Lemma dispatched_app tr1 tr2 : dispatched (tr1 ++ tr2) = dispatched tr1 ++ dispatched tr2.
Proof. apply omap_app. Qed.

Lemma rotation_events_handling h resp : Forall handling_event (rotation_events h resp).
Proof.
  unfold rotation_events. rewrite rotate_and_check_cases. cbn [trace].
  destruct (truthy _), (is_auth_failure _); repeat constructor.
Qed.

Lemma fetches_handling tr : Forall handling_event tr -> fetches tr = [].
Proof.
  induction 1 as [|e tr He _ IH]; [done|].
  destruct e; simpl in *; done.
Qed.

Lemma fetches_arrival h req : fetches (arrival_events h req) = [].
Proof.
  unfold arrival_events. simpl.
  destruct (network h req); [done|].
  apply fetches_handling, rotation_events_handling.
Qed.

Lemma fetches_body h req : fetches (body_events h req) = [].
Proof.
  unfold body_events. destruct (network h req) as [|st ? ?]; [done|].
  by destruct (is_ok st).
Qed.

Lemma fetches_logged {A} label (o : Outcome A) : fetches (logged_events label o) = [].
Proof. by destruct o. Qed.

Lemma fetches_side sel h req : fetches (side_events sel h req) = [].
Proof.
  unfold side_events. destruct sel; [|done].
  by rewrite fetches_app, fetches_arrival, fetches_body.
Qed.

Lemma chat_calls_lookup h ls : chat_calls (trace (run fetchUserEmailFromProfile h ls)) = [].
Proof.
  unfold chat_calls.
  induction (lookup_quiet h ls) as [|e tr He _ IH]; [done|].
  destruct e as [r| | | | | |]; simpl in *; try done.
  rewrite filter_cons_False; [done|].
  unfold is_chat_call. rewrite He. done.
Qed.

(** C2: for an identity classified undergraduate, whatever [onlyUseRuh]
    is, [sendMessage] issues one request after the identity lookup, the
    POST to the RUH chat endpoint; a response with a non-success status
    makes it throw the error whose message carries the status, and a
    successful one makes it return the parsed body as it is. *)
Theorem undergraduate_calls_ruh_once h ls message sessionId guidanceFilter onlyUseRuh :
  isUndergraduate h (resolved_identity h ls) = true ->
  let req := chat_request "/ruh/chat" ls message sessionId (resolved_identity h ls)
               guidanceFilter in
  let r := run (sendMessage message sessionId guidanceFilter onlyUseRuh) h ls in
  fetches (trace r) = fetches (trace (run fetchUserEmailFromProfile h ls)) ++ [req] /\
  chat_calls (trace r) = [req] /\
  (forall st tok js, network h req = Responds st tok js -> is_ok st = false ->
     outcome r = Thrown (JsError ("HTTP error! status: " +:+ pretty st))) /\
  (forall st tok j, network h req = Responds st tok (inr j) -> is_ok st = true ->
     outcome r = Returned j).
Proof.
  intros Hug req r. subst r.
  rewrite (sendMessage_undergraduate_run _ _ _ _ _ _ Hug). fold req.
  cbn [outcome storage trace]. repeat split.
  - by rewrite !fetches_app, fetches_arrival, fetches_body, fetches_logged.
  - rewrite !chat_calls_app, chat_calls_lookup. unfold chat_calls.
    by rewrite fetches_arrival, fetches_body, fetches_logged.
  - intros st tok js Hn Hok. unfold single_outcome. by rewrite Hn, Hok.
  - intros st tok j Hn Hok. unfold single_outcome. by rewrite Hn, Hok.
Qed.

Lemma undergraduate_calls_ruh_once_witness :
  let h := demo_host student (Responds 503 None (inr JNull)) (chat_ok "unused" "s2") in
  let r := run (sendMessage "hello" None None (Some false)) h signed_in in
  chat_calls (trace r)
  = [chat_request "/ruh/chat" signed_in "hello" None (Some "ug@stu.example") None] /\
  outcome r = Thrown (JsError "HTTP error! status: 503").
Proof.
  pose proof (undergraduate_calls_ruh_once
                (demo_host student (Responds 503 None (inr JNull)) (chat_ok "unused" "s2"))
                signed_in "hello" None None (Some false)) as H.
  cbv zeta in *.
  destruct (H eq_refl) as (_ & Hc & Ht & _).
  split; [exact Hc|].
  exact (Ht 503%N None (inr JNull) eq_refl eq_refl).
Defined.

(** ** The non-undergraduate path *)

Lemma chat_calls_non_undergraduate h ls message sessionId guidanceFilter onlyUseRuh :
  isUndergraduate h (resolved_identity h ls) = false ->
  let email := resolved_identity h ls in
  let ruhReq := chat_request "/ruh/chat" ls message sessionId email guidanceFilter in
  let ugcReq := chat_request "/ugc/chat" ls message sessionId email guidanceFilter in
  chat_calls (trace (run (sendMessage message sessionId guidanceFilter onlyUseRuh) h ls)) =
  match onlyUseRuh with
  | None => [ruhReq; ugcReq]
  | Some true => [ruhReq]
  | Some false => [ugcReq]
  end.
Proof.
  intros Hug. cbv zeta.
  rewrite (sendMessage_non_undergraduate_run _ _ _ _ _ _ Hug). cbn [trace].
  rewrite !chat_calls_app, chat_calls_lookup.
  assert (Hs : forall sel req, chat_calls (side_events sel h req) = []).
  { intros. unfold chat_calls. by rewrite fetches_side. }
  rewrite !Hs. by destruct onlyUseRuh as [[|]|].
Qed.

(** When one side only is requested and its variable ends up holding an
    object, that object is the result. *)
Lemma selected_side_alone h ls message sessionId guidanceFilter (only_ruh : bool) :
  isUndergraduate h (resolved_identity h ls) = false ->
  let email := resolved_identity h ls in
  let sid := default "default" sessionId in
  let side := if only_ruh then "RUH" else "UGC" in
  let req := chat_request (if only_ruh then "/ruh/chat" else "/ugc/chat") ls message
               sessionId email guidanceFilter in
  json_truthy (side_result side sid (network h req)) = true ->
  outcome (run (sendMessage message sessionId guidanceFilter (Some only_ruh)) h ls)
  = Returned (side_result side sid (network h req)).
Proof.
  intros Hug. cbv zeta. intros Ht.
  rewrite (sendMessage_non_undergraduate_run _ _ _ _ _ _ Hug). cbn [outcome].
  f_equal. unfold select_or_combine.
  destruct only_ruh; cbn [ruh_selected ugc_selected slot json_truthy]; by rewrite Ht.
Qed.

(** C1: the requests follow the flag, yet the side that was not requested
    shows in the result when the requested one answers with the body
    null: a staff member asks for RUH only, one request leaves, to the RUH
    endpoint, and the result carries a UGC section all the same. *)
Theorem unselected_side_shows_on_null_body :
  let r := run (sendMessage "hello" None None (Some true)) null_body_host signed_in in
  isUndergraduate null_body_host (resolved_identity null_body_host signed_in) = false /\
  chat_calls (trace r)
  = [chat_request "/ruh/chat" signed_in "hello" None (Some "staff@uni.example") None] /\
  outcome r
  = Returned (JChat (mkChatResponse
                       (Some ("[RUH]" +:+ LF +:+ "(no response)" +:+ LF +:+ LF
                              +:+ "[UGC]" +:+ LF +:+ "(no response)"))
                       (Some []) (Some "default"))).
Proof. vm_compute. done. Qed.

(** ** The combination *)

Lemma text_or_default_shown v : text_or_default v = shown_text v.
Proof.
  unfold text_or_default, shown_text, or_else.
  destruct v as [s|]; [|done]. simpl. by destruct (nonempty s).
Qed.

Lemma or_else_first_nonempty a b sid :
  or_else a (or_else b (Some sid)) = Some (first_nonempty [a; b] sid).
Proof.
  unfold or_else.
  destruct a as [x|], b as [y|]; simpl;
    try destruct (nonempty x); try destruct (nonempty y); done.
Qed.

Lemma combinedResponse_fields ruh ugc sid :
  combinedResponse ruh ugc sid =
  mkChatResponse
    (Some (labelled_concatenation (shown_text (get_response ruh))
             (shown_text (get_response ugc))))
    (Some (history_or_empty (get_conversation_history ruh)
           ++ history_or_empty (get_conversation_history ugc)))
    (Some (first_nonempty [get_session_id ruh; get_session_id ugc] sid)).
Proof.
  unfold combinedResponse, labelled_concatenation.
  by rewrite !text_or_default_shown, or_else_first_nonempty.
Qed.

Lemma select_or_combine_both ruh ugc sid :
  json_truthy ruh = true -> json_truthy ugc = true ->
  select_or_combine ruh ugc sid = JChat (combinedResponse ruh ugc sid).
Proof. unfold select_or_combine. by intros -> ->. Qed.

(** C3, as amended: when both sides have a result on the combined path,
    the text is the RUH text then the UGC text under the labels [RUH] and
    [UGC], each text shown as (no response) when it is missing or empty;
    the history is the RUH history followed by the UGC history; the
    session id is the first non-empty of the RUH one, the UGC one and the
    sessionId argument. *)
Theorem combined_response_of_both_sides h ls message sessionId guidanceFilter :
  isUndergraduate h (resolved_identity h ls) = false ->
  let email := resolved_identity h ls in
  let sid := default "default" sessionId in
  let ruh := side_result "RUH" sid
               (network h (chat_request "/ruh/chat" ls message sessionId email guidanceFilter)) in
  let ugc := side_result "UGC" sid
               (network h (chat_request "/ugc/chat" ls message sessionId email guidanceFilter)) in
  json_truthy ruh = true -> json_truthy ugc = true ->
  outcome (run (sendMessage message sessionId guidanceFilter None) h ls) =
  Returned (JChat (mkChatResponse
    (Some (labelled_concatenation (shown_text (get_response ruh))
             (shown_text (get_response ugc))))
    (Some (history_or_empty (get_conversation_history ruh)
           ++ history_or_empty (get_conversation_history ugc)))
    (Some (first_nonempty [get_session_id ruh; get_session_id ugc] sid)))).
Proof.
  intros Hug. cbv zeta. intros Hr Hu.
  rewrite (sendMessage_non_undergraduate_run _ _ _ _ _ _ Hug).
  cbn [outcome ruh_selected ugc_selected slot].
  by rewrite select_or_combine_both, combinedResponse_fields.
Qed.

Lemma combined_response_of_both_sides_witness :
  isUndergraduate ruh_down_host (resolved_identity ruh_down_host signed_in) = false /\
  outcome (run (sendMessage "hello" (Some "s0") None None) ruh_down_host signed_in) =
  Returned (JChat (mkChatResponse
    (Some ("[RUH]" +:+ LF +:+ "RUH request failed: 503" +:+ LF +:+ LF
           +:+ "[UGC]" +:+ LF +:+ "ok"))
    (Some [mkChatMessage "ok"])
    (Some "s0"))).
Proof.
  split; [reflexivity|].
  exact (combined_response_of_both_sides ruh_down_host signed_in "hello" (Some "s0") None
           eq_refl eq_refl eq_refl).
Defined.

(** C3 as stated fails: both sides answer, the RUH text is empty, and the
    combined text is not the two texts under their labels. *)
Lemma combined_text_is_not_the_concatenation :
  let email := resolved_identity empty_text_host signed_in in
  let ruh := side_result "RUH" "default"
               (network empty_text_host
                  (chat_request "/ruh/chat" signed_in "hello" None email None)) in
  let ugc := side_result "UGC" "default"
               (network empty_text_host
                  (chat_request "/ugc/chat" signed_in "hello" None email None)) in
  isUndergraduate empty_text_host email = false /\
  json_truthy ruh = true /\ json_truthy ugc = true /\
  get_response ruh = Some EmptyString /\ get_response ugc = Some "ok" /\
  exists c,
    outcome (run (sendMessage "hello" None None None) empty_text_host signed_in)
    = Returned (JChat c) /\
    response c <> Some (labelled_concatenation EmptyString "ok").
Proof.
  cbv zeta. repeat (split; [reflexivity|]).
  eexists. split; [vm_compute; reflexivity|].
  vm_compute. discriminate.
Qed.

Lemma string_app_inv_head (s a b : string) : s +:+ a = s +:+ b -> a = b.
Proof. induction s as [|c s IH]; simpl; [done|]. intros [=]. auto. Qed.

Lemma shown_text_falsy v : truthy v = false -> shown_text v = "(no response)".
Proof. unfold shown_text. by intros ->. Qed.

Lemma shown_text_truthy v : truthy v = true -> shown_text v = text_of v.
Proof. unfold shown_text. by intros ->. Qed.

Lemma text_of_falsy v : truthy v = false -> text_of v = EmptyString.
Proof. destruct v as [[|c s]|]; simpl; done. Qed.

(** C10: in the combined result a side whose text is missing or empty is
    shown as (no response) under its label, so the combined text is then
    not the two texts under their labels. *)
Theorem empty_text_is_replaced ruh ugc sid :
  (truthy (get_response ruh) = false ->
   response (combinedResponse ruh ugc sid)
   = Some (labelled_concatenation "(no response)" (shown_text (get_response ugc)))) /\
  (truthy (get_response ugc) = false ->
   response (combinedResponse ruh ugc sid)
   = Some (labelled_concatenation (shown_text (get_response ruh)) "(no response)")) /\
  (truthy (get_response ruh) = false \/ truthy (get_response ugc) = false ->
   response (combinedResponse ruh ugc sid)
   <> Some (labelled_concatenation (text_of (get_response ruh))
              (text_of (get_response ugc)))).
Proof.
  rewrite combinedResponse_fields. cbn [response].
  split; [|split].
  - intros H. by rewrite (shown_text_falsy _ H).
  - intros H. by rewrite (shown_text_falsy _ H).
  - intros H [= E]. revert E. unfold labelled_concatenation.
    destruct (truthy (get_response ruh)) eqn:Hr.
    + destruct H as [H|H]; [done|].
      rewrite (shown_text_truthy _ Hr), (shown_text_falsy _ H), (text_of_falsy _ H).
      intros E. simpl in E.
      apply (string_app_inv_head (text_of (get_response ruh))) in E. discriminate.
    + rewrite (shown_text_falsy _ Hr), (text_of_falsy _ Hr).
      intros E. simpl in E. discriminate.
Qed.

Lemma empty_text_is_replaced_witness :
  let ruh := JChat (mkChatResponse (Some EmptyString) (Some []) (Some "s1")) in
  let ugc := JChat (mkChatResponse (Some "ok") (Some []) (Some "s2")) in
  truthy (get_response ruh) = false /\
  response (combinedResponse ruh ugc "s0")
  = Some ("[RUH]" +:+ LF +:+ "(no response)" +:+ LF +:+ LF +:+ "[UGC]" +:+ LF +:+ "ok") /\
  response (combinedResponse ruh ugc "s0")
  <> Some ("[RUH]" +:+ LF +:+ EmptyString +:+ LF +:+ LF +:+ "[UGC]" +:+ LF +:+ "ok").
Proof.
  cbv zeta. split; [reflexivity|].
  pose proof (empty_text_is_replaced
                (JChat (mkChatResponse (Some EmptyString) (Some []) (Some "s1")))
                (JChat (mkChatResponse (Some "ok") (Some []) (Some "s2"))) "s0")
    as (H1 & _ & H3).
  split; [exact (H1 eq_refl) | exact (H3 (or_introl eq_refl))].
Defined.

(** ** Failures of a side *)

(** C4: on the non-undergraduate path a side whose call fails, by a
    non-success status or by a rejected promise, leaves the placeholder
    with the side's name, the status or the rendering of the error, an
    empty history and the caller's session id; the operation returns all
    the same, and the result is built from the two variables by the same
    selection and combination whether they hold placeholders or parsed
    bodies. With a 503 from RUH and a UGC body whose text is ok, the text
    is [RUH], RUH request failed: 503, [UGC], ok. *)
Theorem failed_side_leaves_placeholder h ls message sessionId guidanceFilter onlyUseRuh :
  isUndergraduate h (resolved_identity h ls) = false ->
  let email := resolved_identity h ls in
  let sid := default "default" sessionId in
  let ruhReq := chat_request "/ruh/chat" ls message sessionId email guidanceFilter in
  let ugcReq := chat_request "/ugc/chat" ls message sessionId email guidanceFilter in
  (forall side req ls' st tok js,
     network h req = Responds st tok js -> is_ok st = false ->
     outcome (run (settle_side side sid (Some (mkPromise req (network h req)))) h ls')
     = Returned (JChat (mkChatResponse
                          (Some (side +:+ " request failed: " +:+ pretty st))
                          (Some []) (Some sid)))) /\
  (forall side req ls' e,
     network h req = Rejects e ->
     outcome (run (settle_side side sid (Some (mkPromise req (network h req)))) h ls')
     = Returned (JChat (mkChatResponse
                          (Some (side +:+ " request error: " +:+ String_ e))
                          (Some []) (Some sid)))) /\
  outcome (run (sendMessage message sessionId guidanceFilter onlyUseRuh) h ls)
  = Returned (select_or_combine
                (slot (ruh_selected onlyUseRuh) "RUH" sid (network h ruhReq))
                (slot (ugc_selected onlyUseRuh) "UGC" sid (network h ugcReq)) sid) /\
  (forall tok js j,
     onlyUseRuh = None ->
     network h ruhReq = Responds 503 tok js ->
     side_result "UGC" sid (network h ugcReq) = JChat j ->
     response j = Some "ok" ->
     exists c,
       outcome (run (sendMessage message sessionId guidanceFilter onlyUseRuh) h ls)
       = Returned (JChat c) /\
       response c = Some ("[RUH]" +:+ LF +:+ "RUH request failed: 503" +:+ LF +:+ LF
                          +:+ "[UGC]" +:+ LF +:+ "ok")).
Proof.
  intros Hug. cbv zeta.
  split; [|split; [|split]].
  - intros side req ls' st tok js Hn Hok.
    rewrite settle_side_run. cbn [outcome]. unfold side_result. by rewrite Hn, Hok.
  - intros side req ls' e Hn.
    rewrite settle_side_run. cbn [outcome]. unfold side_result. by rewrite Hn.
  - by rewrite (sendMessage_non_undergraduate_run _ _ _ _ _ _ Hug).
  - intros tok js j -> Hn Hu Hj.
    rewrite (sendMessage_non_undergraduate_run _ _ _ _ _ _ Hug).
    cbn [outcome ruh_selected ugc_selected slot]. rewrite Hu.
    unfold side_result at 1. rewrite Hn. cbn [is_ok N.leb N.compare andb].
    eexists. split; [reflexivity|].
    rewrite combinedResponse_fields. cbn [response get_response placeholder].
    rewrite Hj. reflexivity.
Qed.

Lemma failed_side_leaves_placeholder_witness :
  isUndergraduate ruh_down_host (resolved_identity ruh_down_host signed_in) = false /\
  outcome (run (sendMessage "hello" None None None) ruh_down_host signed_in)
  = Returned (JChat (mkChatResponse
       (Some ("[RUH]" +:+ LF +:+ "RUH request failed: 503" +:+ LF +:+ LF
              +:+ "[UGC]" +:+ LF +:+ "ok"))
       (Some [mkChatMessage "ok"]) (Some "default"))).
Proof.
  split; [reflexivity|].
  pose proof (failed_side_leaves_placeholder ruh_down_host signed_in "hello" None None None
                eq_refl) as (_ & _ & H & _).
  exact H.
Defined.

(** C7: when a non-undergraduate caller selects one side and that call
    fails, [sendMessage] returns the placeholder of that side and does not
    throw; and whenever one of the two variables holds a result and the
    other does not, that result is returned as it is, session id
    included. *)
Theorem sole_result_is_returned h ls message sessionId guidanceFilter :
  isUndergraduate h (resolved_identity h ls) = false ->
  let email := resolved_identity h ls in
  let sid := default "default" sessionId in
  let ruhReq := chat_request "/ruh/chat" ls message sessionId email guidanceFilter in
  let ugcReq := chat_request "/ugc/chat" ls message sessionId email guidanceFilter in
  (forall only_ruh : bool,
     let side := if only_ruh then "RUH" else "UGC" in
     let req := if only_ruh then ruhReq else ugcReq in
     failed (network h req) = true ->
     exists text,
       side_result side sid (network h req) = placeholder text sid /\
       outcome (run (sendMessage message sessionId guidanceFilter (Some only_ruh)) h ls)
       = Returned (placeholder text sid)) /\
  (forall onlyUseRuh,
     let ruh := slot (ruh_selected onlyUseRuh) "RUH" sid (network h ruhReq) in
     let ugc := slot (ugc_selected onlyUseRuh) "UGC" sid (network h ugcReq) in
     let r := run (sendMessage message sessionId guidanceFilter onlyUseRuh) h ls in
     (json_truthy ruh = true -> json_truthy ugc = false -> outcome r = Returned ruh) /\
     (json_truthy ugc = true -> json_truthy ruh = false -> outcome r = Returned ugc)).
Proof.
  intros Hug. cbv zeta. split.
  - intros only_ruh Hf.
    assert (Hp : forall side a, failed a = true ->
                 exists text, side_result side (default "default" sessionId) a
                              = placeholder text (default "default" sessionId)).
    { intros side [e|st tok js]; simpl; [eauto|].
      destruct (is_ok st); simpl; [|eauto]. destruct js; [eauto|done]. }
    destruct (Hp (if only_ruh then "RUH" else "UGC") _ Hf) as [text Ht].
    exists text. split; [exact Ht|].
    rewrite (sendMessage_non_undergraduate_run _ _ _ _ _ _ Hug). cbn [outcome].
    destruct only_ruh; cbn [ruh_selected ugc_selected slot]; by rewrite Ht.
  - intros onlyUseRuh.
    rewrite (sendMessage_non_undergraduate_run _ _ _ _ _ _ Hug). cbn [outcome].
    unfold select_or_combine. split; intros -> ->; done.
Qed.

Lemma sole_result_is_returned_witness :
  isUndergraduate ruh_down_host (resolved_identity ruh_down_host signed_in) = false /\
  outcome (run (sendMessage "hello" (Some "s0") None (Some true)) ruh_down_host signed_in)
  = Returned (JChat (mkChatResponse (Some "RUH request failed: 503") (Some []) (Some "s0"))).
Proof.
  split; [reflexivity|].
  pose proof (sole_result_is_returned ruh_down_host signed_in "hello" (Some "s0") None
                eq_refl) as [_ H].
  exact (proj1 (H (Some true)) eq_refl eq_refl).
Defined.

(** ** Order of the combined path *)

Lemma side_events_of_other_request h req other :
  url other <> url req -> other <> req ->
  Forall (fun e => e <> EAwait other /\ e <> EJson (url other)) (side_events true h req).
Proof.
  intros Hu Hr. unfold side_events, arrival_events, body_events.
  apply Forall_app. split.
  - constructor; [split; congruence|].
    destruct (network h req) as [|st tok js]; [constructor|].
    eapply Forall_impl; [apply rotation_events_handling|].
    intros [] He; simpl in He; try done; split; discriminate.
  - destruct (network h req) as [|st tok js]; [constructor|].
    destruct (is_ok st); repeat constructor; congruence.
Qed.

(** C6: on the combined path both requests are issued before any promise
    is awaited; then the RUH answer is awaited, rotated, checked for an
    auth failure and its body read; only then is the UGC answer awaited
    and handled the same way. The storage ends as the RUH handling
    followed by the UGC handling leave it. *)
Theorem combined_path_order h ls message sessionId guidanceFilter :
  isUndergraduate h (resolved_identity h ls) = false ->
  let email := resolved_identity h ls in
  let ruhReq := chat_request "/ruh/chat" ls message sessionId email guidanceFilter in
  let ugcReq := chat_request "/ugc/chat" ls message sessionId email guidanceFilter in
  let r := run (sendMessage message sessionId guidanceFilter None) h ls in
  trace r = trace (run fetchUserEmailFromProfile h ls)
            ++ [EFetch ruhReq; EFetch ugcReq]
            ++ (arrival_events h ruhReq ++ body_events h ruhReq)
            ++ (arrival_events h ugcReq ++ body_events h ugcReq) /\
  (exists handling, arrival_events h ruhReq = EAwait ruhReq :: handling) /\
  (exists handling, arrival_events h ugcReq = EAwait ugcReq :: handling) /\
  fetches (arrival_events h ruhReq ++ body_events h ruhReq) = [] /\
  fetches (arrival_events h ugcReq ++ body_events h ugcReq) = [] /\
  Forall (fun e => e <> EAwait ugcReq /\ e <> EJson (url ugcReq))
    (arrival_events h ruhReq ++ body_events h ruhReq) /\
  storage r = after_arrival h ugcReq (after_arrival h ruhReq ls).
Proof.
  intros Hug. cbv zeta.
  rewrite (sendMessage_non_undergraduate_run _ _ _ _ _ _ Hug).
  cbn [trace storage ruh_selected ugc_selected side_events].
  repeat split.
  - unfold arrival_events. eauto.
  - unfold arrival_events. eauto.
  - apply (fetches_side true).
  - apply (fetches_side true).
  - apply (side_events_of_other_request h); unfold chat_request; simpl; congruence.
Qed.

Lemma combined_path_order_witness :
  let ruhReq := chat_request "/ruh/chat" signed_in "hello" None (Some "staff@uni.example") None in
  let ugcReq := chat_request "/ugc/chat" signed_in "hello" None (Some "staff@uni.example") None in
  let r := run (sendMessage "hello" None None None) rotating_host signed_in in
  isUndergraduate rotating_host (resolved_identity rotating_host signed_in) = false /\
  trace r = trace (run fetchUserEmailFromProfile rotating_host signed_in)
            ++ [EFetch ruhReq; EFetch ugcReq]
            ++ [EAwait ruhReq; ESetItem "auth_token" "T2"; ERemoveItem "auth_token";
                EDispatch (mkCustomEvent "auth:logout" false false 403)]
            ++ [EAwait ugcReq; ESetItem "auth_token" "T3"; EJson (url ugcReq)] /\
  storage r !! "auth_token" = Some "T3".
Proof.
  cbv zeta. split; [reflexivity|].
  pose proof (combined_path_order rotating_host signed_in "hello" None None eq_refl)
    as (Ht & _ & _ & _ & _ & _ & Hs).
  split; [exact Ht|]. rewrite Hs. reflexivity.
Defined.

(** ** Rotation and auth failure *)

(** C5: a response with status 401 or 403 goes through rotation and then
    auth-failure handling without anything being thrown; unless
    [removeItem] itself throws, the stored token ends up unset, also when
    the same response carried an [x-access-token] that was stored first;
    one auth:logout event with the status in its detail is dispatched,
    whether or not [removeItem] threw; when the [CustomEvent] constructor
    throws, the event is the one built through [createEvent] and
    [initCustomEvent]. *)
Theorem auth_failure_clears_and_broadcasts h resp ls :
  status resp = 401%N \/ status resp = 403%N ->
  let r := run (rotate_and_check resp) h ls in
  outcome r = Returned tt /\
  (removeItem_throws h = None -> storage r !! "auth_token" = None) /\
  trace r = (if truthy (header_x_access_token resp)
             then [ESetItem "auth_token" (text_of (header_x_access_token resp))] else [])
            ++ [ERemoveItem "auth_token";
                EDispatch (if CustomEvent_throws h is Some _
                           then mkCustomEvent "auth:logout" true true (status resp)
                           else mkCustomEvent "auth:logout" false false (status resp))] /\
  exists ev, dispatched (trace r) = [ev] /\ type ev = "auth:logout" /\
             detail_status ev = status resp.
Proof.
  intros Hst. cbv zeta.
  assert (Hb : is_auth_failure (status resp) = true).
  { unfold is_auth_failure. destruct Hst as [-> | ->]; reflexivity. }
  rewrite rotate_and_check_cases, Hb. cbn [outcome storage trace].
  split; [done|]. split; [|split; [done|]].
  - intros ->. apply lookup_delete_eq.
  - rewrite dispatched_app. destruct (truthy _), (CustomEvent_throws h); simpl; eauto.
Qed.

Lemma auth_failure_clears_and_broadcasts_witness :
  let resp := mkResponse (mkUrl Guidance_Base_URL "/health" []) 403 (Some "T2") (inr JNull) in
  let r := run (rotate_and_check resp) (demo_host staff (Rejects (Foreign "down"))
                                          (Rejects (Foreign "down"))) signed_in in
  status resp = 403%N /\
  storage r !! "auth_token" = None /\
  trace r = [ESetItem "auth_token" "T2"; ERemoveItem "auth_token";
             EDispatch (mkCustomEvent "auth:logout" false false 403)].
Proof.
  cbv zeta. split; [reflexivity|].
  pose proof (auth_failure_clears_and_broadcasts
                (demo_host staff (Rejects (Foreign "down")) (Rejects (Foreign "down")))
                (mkResponse (mkUrl Guidance_Base_URL "/health" []) 403 (Some "T2") (inr JNull))
                signed_in (or_intror eq_refl)) as (_ & Hs & Ht & _).
  split; [exact (Hs eq_refl) | exact Ht].
Defined.

(** With [removeItem] and the constructor both throwing, the event still
    goes out, built the old way; the token that rotation stored stays. *)
Example logout_on_a_broken_platform :
  let resp := mkResponse (mkUrl Guidance_Base_URL "/health" []) 403 (Some "T2") (inr JNull) in
  let r := run (rotate_and_check resp) broken_platform_host signed_in in
  outcome r = Returned tt /\
  trace r = [ESetItem "auth_token" "T2"; ERemoveItem "auth_token";
             EDispatch (mkCustomEvent "auth:logout" true true 403)] /\
  storage r !! "auth_token" = Some "T2".
Proof. cbv zeta. repeat split; reflexivity. Qed.

(** ** The forwarding operations *)

Lemma getAccessToken_run h ls :
  run getAccessToken h ls = mkRun (Returned (ls !! "auth_token")) ls [].
Proof. reflexivity. Qed.

Lemma resolve_user_run h ls userId :
  run (resolve_user userId) h ls =
  mkRun (Returned (resolved_user h ls userId)) ls (resolve_events h ls userId).
Proof.
  unfold resolve_user, resolved_user, resolve_events.
  destruct (truthy userId); [reflexivity | apply lookup_run].
Qed.

Lemma forward_json_run h ls (mk : option string -> Request) :
  run (token <- getAccessToken ;;
       p <- fetch (mk token) ;;
       response <- checked p ;;
       json response) h ls =
  mkRun (single_outcome (network h (mk (ls !! "auth_token"))))
    (after_arrival h (mk (ls !! "auth_token")) ls)
    ([EFetch (mk (ls !! "auth_token"))] ++ arrival_events h (mk (ls !! "auth_token"))
     ++ body_events h (mk (ls !! "auth_token"))).
Proof.
  erewrite bind_returned by apply getAccessToken_run.
  erewrite bind_returned by apply fetch_run.
  cbn [outcome storage trace].
  rewrite run_bind, checked_run. cbn [outcome storage trace].
  unfold single_outcome, body_events.
  destruct (network h (mk (ls !! "auth_token"))) as [e|st tok js];
    [by rewrite !app_nil_r|].
  destruct (is_ok st); [|by rewrite !app_nil_r].
  cbv zeta. rewrite json_run. cbn [outcome storage trace payload resp_url].
  by destruct js.
Qed.

Ltac forward_step :=
  first
    [ erewrite bind_returned by
        first [ apply resolve_user_run | apply host_run | apply getAccessToken_run
              | apply fetch_run ]
    | rewrite logged_run ];
  cbn [outcome storage trace].

Lemma createNewChatSession_run h ls userId :
  let req := session_request ls (resolved_user h ls userId) in
  run (createNewChatSession userId) h ls =
  mkRun (single_outcome (network h req)) (after_arrival h req ls)
    ((resolve_events h ls userId ++ [EFetch req] ++ arrival_events h req ++ body_events h req)
     ++ logged_events "Error creating new chat session:" (single_outcome (network h req))).
Proof.
  cbv zeta. unfold createNewChatSession. rewrite logged_run.
  erewrite bind_returned by apply resolve_user_run.
  cbn [outcome storage trace].
  rewrite (forward_json_run h ls
             (fun token => mkRequest (mkUrl Guidance_Base_URL "/chat/session" []) POST
                             (json_headers token)
                             (SessionRequest (resolved_user h ls userId)))).
  reflexivity.
Qed.

Lemma getChatHistory_run h ls sessionId userId :
  let req := history_request ls sessionId (resolved_user h ls userId) in
  run (getChatHistory sessionId userId) h ls =
  mkRun (single_outcome (network h req)) (after_arrival h req ls)
    ((resolve_events h ls userId ++ [EFetch req] ++ arrival_events h req ++ body_events h req)
     ++ logged_events "Error getting chat history:" (single_outcome (network h req))).
Proof.
  cbv zeta. unfold getChatHistory. rewrite logged_run.
  erewrite bind_returned by apply resolve_user_run.
  cbn [outcome storage trace].
  rewrite (forward_json_run h ls
             (fun token =>
                mkRequest
                  (mkUrl Guidance_Base_URL
                     ("/chat/" +:+ default "default" sessionId +:+ "/history")
                     (append_if_present "user_id" (resolved_user h ls userId) []))
                  GET (auth_headers token) NoBody)).
  reflexivity.
Qed.

Lemma healthCheck_run h ls :
  let req := health_request ls in
  run healthCheck h ls =
  mkRun (single_outcome (network h req)) (after_arrival h req ls)
    (([EFetch req] ++ arrival_events h req ++ body_events h req)
     ++ logged_events "Error checking health:" (single_outcome (network h req))).
Proof.
  cbv zeta. unfold healthCheck. rewrite logged_run.
  rewrite (forward_json_run h ls
             (fun token => mkRequest (mkUrl Guidance_Base_URL "/health" []) GET
                             (auth_headers token) NoBody)).
  reflexivity.
Qed.

Lemma getChatSessions_run h ls userId :
  let req := sessions_request ls (resolved_user h ls userId) in
  run (getChatSessions userId) h ls =
  mkRun (single_outcome (network h req)) (after_arrival h req ls)
    ((resolve_events h ls userId ++ [EFetch req] ++ arrival_events h req ++ body_events h req)
     ++ logged_events "Error getting chat sessions:" (single_outcome (network h req))).
Proof.
  cbv zeta. unfold getChatSessions. rewrite logged_run.
  erewrite bind_returned by apply resolve_user_run.
  cbn [outcome storage trace].
  rewrite (forward_json_run h ls
             (fun token =>
                mkRequest
                  (mkUrl Guidance_Base_URL "/chat/sessions"
                     (append_if_present "user_id" (resolved_user h ls userId) []))
                  GET (auth_headers token) NoBody)).
  reflexivity.
Qed.

Lemma routeLatest_run h ls sessionId userId :
  let req := route_request h ls sessionId (resolved_user h ls userId) in
  run (routeLatest sessionId userId) h ls =
  mkRun (single_outcome (network h req)) (after_arrival h req ls)
    ((resolve_events h ls userId ++ [EFetch req] ++ arrival_events h req ++ body_events h req)
     ++ logged_events "Error routing latest message:" (single_outcome (network h req))).
Proof.
  cbv zeta. unfold routeLatest. rewrite logged_run.
  erewrite bind_returned by apply resolve_user_run.
  cbn [outcome storage trace].
  erewrite bind_returned by apply host_run.
  cbn [outcome storage trace].
  rewrite (forward_json_run h ls
             (fun token =>
                mkRequest
                  (mkUrl Guidance_Base_URL
                     ("/" +:+ (if isUndergraduate h (resolved_user h ls userId)
                               then "ruh" else "ugc") +:+ "/chat/route")
                     (append_if_present "user_id" (resolved_user h ls userId)
                        (append_if_present "session_id"
                           (Some (default "default" sessionId)) [])))
                  POST (auth_headers token) NoBody)).
  reflexivity.
Qed.

(** How [sendFeedback] ends: nothing is returned, a failure is thrown. *)
Lemma sendFeedback_run h ls sessionId messageIndex feedbackType userId :
  let req := feedback_request ls sessionId messageIndex feedbackType userId in
  let o := match network h req with
           | Rejects e => Thrown e
           | Responds st _ _ => if is_ok st then Returned tt else Thrown (HTTP_error st)
           end in
  run (sendFeedback sessionId messageIndex feedbackType userId) h ls =
  mkRun o (after_arrival h req ls)
    (([EFetch req] ++ arrival_events h req) ++ logged_events "Error sending feedback:" o).
Proof.
  cbv zeta. unfold sendFeedback. rewrite logged_run.
  erewrite bind_returned by apply getAccessToken_run.
  erewrite bind_returned by apply fetch_run.
  cbn [outcome storage trace].
  rewrite run_bind, checked_run. cbn [outcome storage trace].
  fold (feedback_request ls sessionId messageIndex feedbackType userId).
  destruct (network h (feedback_request ls sessionId messageIndex feedbackType userId))
    as [e|st tok js]; [reflexivity|].
  destruct (is_ok st); [|reflexivity].
  cbv zeta. rewrite ret_run. cbn [outcome storage trace]. by rewrite !app_nil_r.
Qed.

(** ** Which responses are handled *)

Lemma audited_app h tr1 tr2 : audited h tr1 -> audited h tr2 -> audited h (tr1 ++ tr2).
Proof.
  induction 1 as [|req st tok js reads rest Hn Hr _ IH|req e rest Hn _ IH|e rest He _ IH];
    intros H2; simpl.
  - done.
  - rewrite <- !app_assoc. by apply audited_response; [..|apply IH].
  - by eapply audited_rejected; [|apply IH].
  - by apply audited_other; [|apply IH].
Qed.

Lemma audited_arrival h req reads :
  reads = [] \/ reads = body_events h req ->
  audited h (arrival_events h req ++ reads).
Proof.
  unfold arrival_events, body_events. intros Hr.
  destruct (network h req) as [e|st tok js] eqn:Hn; simpl.
  - destruct Hr as [-> | ->]; by eapply audited_rejected; [|constructor].
  - rewrite <- (app_nil_r reads).
    apply audited_response; [done| |constructor].
    destruct Hr as [-> | ->]; [by left|].
    destruct (is_ok st); [by right | by left].
Qed.

Lemma audited_logged {A} h label (o : Outcome A) : audited h (logged_events label o).
Proof. destruct o; simpl; [constructor|]. by apply audited_other; [|constructor]. Qed.

Lemma audited_fetch h req : audited h [EFetch req].
Proof. by apply audited_other; [|constructor]. Qed.

Lemma audited_side h sel req : audited h (side_events sel h req).
Proof.
  unfold side_events. destruct sel; [|constructor].
  apply audited_arrival. by right.
Qed.

Lemma audited_request h req :
  audited h ([EFetch req] ++ arrival_events h req ++ body_events h req).
Proof. apply audited_app; [apply audited_fetch|]. apply audited_arrival. by right. Qed.

(** C8, as amended: every response that a method of [ApiService] awaits
    goes through rotation and auth-failure handling at once, before its
    body is read; the response of the identity lookup does not: the
    lookup leaves the storage as it is and dispatches nothing. *)
Theorem service_responses_are_handled h ls :
  (storage (run fetchUserEmailFromProfile h ls) = ls /\
   Forall lookup_event (trace (run fetchUserEmailFromProfile h ls))) /\
  (forall message sessionId guidanceFilter onlyUseRuh,
     exists tr,
       trace (run (sendMessage message sessionId guidanceFilter onlyUseRuh) h ls)
       = trace (run fetchUserEmailFromProfile h ls) ++ tr /\ audited h tr) /\
  (forall userId,
     exists tr,
       trace (run (createNewChatSession userId) h ls) = resolve_events h ls userId ++ tr /\
       audited h tr) /\
  (forall sessionId messageIndex feedbackType userId,
     audited h (trace (run (sendFeedback sessionId messageIndex feedbackType userId) h ls))) /\
  (forall sessionId userId,
     exists tr,
       trace (run (getChatHistory sessionId userId) h ls) = resolve_events h ls userId ++ tr /\
       audited h tr) /\
  audited h (trace (run healthCheck h ls)) /\
  (forall userId,
     exists tr,
       trace (run (getChatSessions userId) h ls) = resolve_events h ls userId ++ tr /\
       audited h tr) /\
  (forall sessionId userId,
     exists tr,
       trace (run (routeLatest sessionId userId) h ls) = resolve_events h ls userId ++ tr /\
       audited h tr).
Proof.
  repeat split.
  - by rewrite lookup_run.
  - apply lookup_quiet.
  - intros message sessionId guidanceFilter onlyUseRuh.
    destruct (isUndergraduate h (resolved_identity h ls)) eqn:Hug.
    + rewrite (sendMessage_undergraduate_run _ _ _ _ _ _ Hug). cbn [trace].
      eexists. split; [reflexivity|].
      rewrite !app_assoc. apply audited_app; [|apply audited_logged].
      rewrite <- !app_assoc. apply audited_request.
    + rewrite (sendMessage_non_undergraduate_run _ _ _ _ _ _ Hug). cbn [trace].
      eexists. split; [reflexivity|].
      repeat apply audited_app; try apply audited_side;
        destruct onlyUseRuh as [[|]|]; simpl; try apply audited_fetch; constructor.
  - intros userId. rewrite createNewChatSession_run. cbn [trace].
    eexists. split; [by rewrite <- !app_assoc|].
    rewrite !app_assoc. apply audited_app; [|apply audited_logged].
    rewrite <- !app_assoc. apply audited_request.
  - intros. rewrite sendFeedback_run. cbn [trace].
    apply audited_app; [|apply audited_logged].
    apply audited_app; [apply audited_fetch|].
    rewrite <- (app_nil_r (arrival_events _ _)). apply audited_arrival. by left.
  - intros sessionId userId. rewrite getChatHistory_run. cbn [trace].
    eexists. split; [by rewrite <- !app_assoc|].
    rewrite !app_assoc. apply audited_app; [|apply audited_logged].
    rewrite <- !app_assoc. apply audited_request.
  - rewrite healthCheck_run. cbn [trace].
    apply audited_app; [apply audited_request | apply audited_logged].
  - intros userId. rewrite getChatSessions_run. cbn [trace].
    eexists. split; [by rewrite <- !app_assoc|].
    rewrite !app_assoc. apply audited_app; [|apply audited_logged].
    rewrite <- !app_assoc. apply audited_request.
  - intros sessionId userId. rewrite routeLatest_run. cbn [trace].
    eexists. split; [by rewrite <- !app_assoc|].
    rewrite !app_assoc. apply audited_app; [|apply audited_logged].
    rewrite <- !app_assoc. apply audited_request.
Qed.

(** C8 as stated fails on the identity lookup: the auth service answers
    401 with a fresh token in [x-access-token]; the response is awaited,
    the token in store stays the old one, nothing is dispatched. *)
Lemma lookup_response_is_not_handled :
  let me := mkRequest (mkUrl Auth_Base_URL "/auth/me" []) GET
              [("Authorization", "Bearer T1"); ("Content-Type", "application/json")]
              NoBody in
  let r := run fetchUserEmailFromProfile stale_lookup_host signed_in in
  network stale_lookup_host me = Responds 401 (Some "T2") (inr JNull) /\
  trace r = [EFetch me; EAwait me] /\
  storage r !! "auth_token" = Some "T1" /\
  dispatched (trace r) = [] /\
  ~ audited stale_lookup_host (trace r).
Proof.
  cbv zeta. repeat split; try reflexivity.
  change (trace (run fetchUserEmailFromProfile stale_lookup_host signed_in))
    with [EFetch (mkRequest (mkUrl Auth_Base_URL "/auth/me" []) GET
                    [("Authorization", "Bearer T1"); ("Content-Type", "application/json")]
                    NoBody);
          EAwait (mkRequest (mkUrl Auth_Base_URL "/auth/me" []) GET
                    [("Authorization", "Bearer T1"); ("Content-Type", "application/json")]
                    NoBody)].
  intros H. inversion H as [| | |e rest _ H' [E1 E2]]; subst.
  inversion H' as [|req st tok js reads rest Hn _ _ [E1 E2]
                   |req e rest Hn _ [E1 E2]|e rest He _ [E1 E2]]; subst.
  - vm_compute in Hn. injection Hn as <- <- <-.
    vm_compute in E2. discriminate.
  - vm_compute in Hn. discriminate.
  - done.
Qed.

(** ** The identity of the forwarding operations *)

Lemma append_resolved_identity h ls name params :
  append_if_present name (resolved_identity h ls) params =
  params ++ match resolved_identity h ls with
            | Some e => [(name, e)]
            | None => []
            end.
Proof.
  unfold append_if_present.
  destruct (lookup_truthy h ls) as [-> | Ht]; [by rewrite app_nil_r|].
  rewrite Ht. destruct (resolved_identity h ls); [done | by rewrite app_nil_r].
Qed.

Lemma fetches_request h req :
  fetches ([EFetch req] ++ arrival_events h req ++ body_events h req) = [req].
Proof. by rewrite !fetches_app, fetches_arrival, fetches_body. Qed.

(** [sendFeedback] forwards the [userId] it is given, and looks nobody up. *)
Lemma sendFeedback_forwards_userId h ls sessionId messageIndex feedbackType userId :
  fetches (trace (run (sendFeedback sessionId messageIndex feedbackType userId) h ls))
  = [feedback_request ls sessionId messageIndex feedbackType userId].
Proof.
  rewrite sendFeedback_run. cbn [trace].
  by rewrite !fetches_app, fetches_arrival, fetches_logged.
Qed.

(** C9, as amended: called without a [userId], [createNewChatSession],
    [getChatHistory], [getChatSessions] and [routeLatest] look the
    identity up and send it as the user_id; [getChatHistory] and
    [getChatSessions] put it in the query when there is one and leave the
    parameter out when there is none; [healthCheck] looks nobody up and
    sends no user_id. *)
Theorem forwarding_uses_resolved_identity h ls :
  let identity := resolved_identity h ls in
  let lookup := fetches (trace (run fetchUserEmailFromProfile h ls)) in
  let user_param := match identity with Some e => [("user_id", e)] | None => [] end in
  (fetches (trace (run (createNewChatSession None) h ls))
   = lookup ++ [session_request ls identity] /\
   user_id_of (session_request ls identity) = identity) /\
  (forall sessionId,
     fetches (trace (run (getChatHistory sessionId None) h ls))
     = lookup ++ [history_request ls sessionId identity] /\
     searchParams (url (history_request ls sessionId identity)) = user_param) /\
  (fetches (trace (run (getChatSessions None) h ls))
   = lookup ++ [sessions_request ls identity] /\
   searchParams (url (sessions_request ls identity)) = user_param) /\
  (forall sessionId,
     fetches (trace (run (routeLatest sessionId None) h ls))
     = lookup ++ [route_request h ls sessionId identity] /\
     searchParams (url (route_request h ls sessionId identity))
     = append_if_present "session_id" (Some (default "default" sessionId)) [] ++ user_param) /\
  (fetches (trace (run healthCheck h ls)) = [health_request ls] /\
   user_id_of (health_request ls) = None).
Proof.
  cbv zeta. repeat split.
  - rewrite createNewChatSession_run. cbn [trace].
    by rewrite !fetches_app, fetches_arrival, fetches_body, fetches_logged, !app_nil_r.
  - rewrite getChatHistory_run. cbn [trace].
    by rewrite !fetches_app, fetches_arrival, fetches_body, fetches_logged, !app_nil_r.
  - unfold history_request. cbn [url searchParams].
    by rewrite append_resolved_identity.
  - rewrite getChatSessions_run. cbn [trace].
    by rewrite !fetches_app, fetches_arrival, fetches_body, fetches_logged, !app_nil_r.
  - unfold sessions_request. cbn [url searchParams].
    by rewrite append_resolved_identity.
  - rewrite routeLatest_run. cbn [trace].
    by rewrite !fetches_app, fetches_arrival, fetches_body, fetches_logged, !app_nil_r.
  - unfold route_request. cbn [url searchParams].
    by rewrite append_resolved_identity.
  - rewrite healthCheck_run. cbn [trace].
    by rewrite !fetches_app, fetches_arrival, fetches_body, fetches_logged, !app_nil_r.
Qed.

(** C9 as stated fails on [healthCheck]: a signed-in staff member, whose
    identity the lookup would resolve, checks the health of the service;
    one request leaves, to /health, with no user_id, and nobody is looked
    up. *)
Lemma healthCheck_resolves_no_identity :
  let r := run healthCheck idle_host signed_in in
  resolved_identity idle_host signed_in = Some "staff@uni.example" /\
  fetches (trace (run fetchUserEmailFromProfile idle_host signed_in))
  = [mkRequest (mkUrl Auth_Base_URL "/auth/me" []) GET
       [("Authorization", "Bearer T1"); ("Content-Type", "application/json")] NoBody] /\
  fetches (trace r)
  = [mkRequest (mkUrl Guidance_Base_URL "/health" []) GET
       [("Authorization", "Bearer T1")] NoBody] /\
  user_id_of (mkRequest (mkUrl Guidance_Base_URL "/health" []) GET
                [("Authorization", "Bearer T1")] NoBody) = None.
Proof. cbv zeta. repeat split; reflexivity. Qed.

(** A 403 with a fresh token on /health: the call throws with the status,
    the token is unset and the logout event carries 403. *)
Example healthCheck_on_expired_session :
  let r := run healthCheck expired_host signed_in in
  outcome r = Thrown (JsError "HTTP error! status: 403") /\
  storage r !! "auth_token" = None /\
  dispatched (trace r) = [mkCustomEvent "auth:logout" false false 403].
Proof. cbv zeta. repeat split; reflexivity. Qed.

(** * Further properties *)

(** ** The identity lookup *)

Lemma lookup_without_token_run h ls :
  truthy (ls !! "auth_token") = false ->
  run fetchUserEmailFromProfile h ls = mkRun (Returned None) ls [].
Proof. intros Ht. rewrite lookup_cases. cbv zeta. by rewrite Ht. Qed.

(** X1: with no token in store, or an empty one, the lookup answers null
    at once: no request leaves. *)
Theorem lookup_without_token h ls :
  truthy (ls !! "auth_token") = false ->
  run fetchUserEmailFromProfile h ls = mkRun (Returned None) ls [].
Proof. apply lookup_without_token_run. Qed.

Lemma lookup_without_token_witness :
  truthy (blank_token !! "auth_token") = false /\
  run fetchUserEmailFromProfile idle_host blank_token = mkRun (Returned None) blank_token [].
Proof.
  split; [reflexivity|].
  exact (lookup_without_token idle_host blank_token eq_refl).
Defined.

(** X2: the lookup resolves to an email exactly when a non-empty token is
    in store, the auth service answers the GET to /auth/me carrying that
    token with a success status, and the body parses to an object whose
    email is a non-empty string; in every other case, a rejected promise,
    any other status, an unparsable or null body included, it resolves to
    null. It never throws. *)
Theorem lookup_resolves_iff h ls e :
  (exists o, outcome (run fetchUserEmailFromProfile h ls) = Returned o) /\
  (resolved_identity h ls = Some e <->
   truthy (ls !! "auth_token") = true /\ nonempty e = true /\
   exists st tok,
     network h (profile_request (ls !! "auth_token"))
     = Responds st tok (inr (JProfile (Some e))) /\
     is_ok st = true).
Proof.
  split; [rewrite lookup_run; eauto|].
  unfold resolved_identity. rewrite lookup_cases. cbv zeta.
  destruct (truthy (ls !! "auth_token"));
    [destruct (network h _) as [x|st tok js];
       [| destruct (is_ok st) eqn:Hok;
          [destruct js as [x|[|[s|]| |]]; [| | destruct (nonempty s) eqn:Hs | ..] |]] |];
    cbn [outcome truthy];
    rewrite ?Hs;
    (split;
     [ first [done | intros [= <-]; repeat split; eauto]
     | intros (? & ? & ? & ? & ? & ?); simplify_eq; first [done | congruence] ]).
Qed.

(** ** What rotation and auth-failure handling leave *)

Lemma rotation_storage h resp ls :
  storage (run (rotate_and_check resp) h ls) =
  let rotated := if truthy (header_x_access_token resp)
                 then <["auth_token" := text_of (header_x_access_token resp)]> ls
                 else ls in
  if is_auth_failure (status resp) then
    if removeItem_throws h is Some _ then rotated else delete "auth_token" rotated
  else rotated.
Proof. by rewrite rotate_and_check_cases. Qed.

Lemma rotation_dispatched h resp :
  dispatched (rotation_events h resp) =
  if is_auth_failure (status resp) then
    [if CustomEvent_throws h is Some _
     then mkCustomEvent "auth:logout" true true (status resp)
     else mkCustomEvent "auth:logout" false false (status resp)]
  else [].
Proof.
  unfold rotation_events. rewrite rotate_and_check_cases. cbn [trace].
  by destruct (truthy _), (is_auth_failure _).
Qed.

Lemma rotation_frame h resp ls k :
  k <> "auth_token" ->
  storage (run (rotate_and_check resp) h ls) !! k = ls !! k.
Proof.
  intros Hk. rewrite rotation_storage. cbv zeta.
  destruct (truthy _), (is_auth_failure _), (removeItem_throws h);
    rewrite ?lookup_delete_ne, ?lookup_insert_ne; done.
Qed.

Lemma after_arrival_frame h req ls k :
  k <> "auth_token" -> after_arrival h req ls !! k = ls !! k.
Proof.
  intros Hk. unfold after_arrival.
  destruct (network h req); [done|]. by apply rotation_frame.
Qed.

(** X3: a response whose status is neither 401 nor 403 only rotates: a
    non-empty [x-access-token] replaces the token in store, whatever the
    status (a 500 rotates as a 200 does), a missing or empty one leaves
    the store as it is; nothing is dispatched and nothing is thrown. *)
Theorem rotation_without_auth_failure h resp ls :
  is_auth_failure (status resp) = false ->
  let r := run (rotate_and_check resp) h ls in
  outcome r = Returned tt /\
  storage r = (if truthy (header_x_access_token resp)
               then <["auth_token" := text_of (header_x_access_token resp)]> ls
               else ls) /\
  dispatched (trace r) = [].
Proof.
  intros Hst. cbv zeta.
  destruct (rotate_and_check_run h resp ls) as [ls' Hr].
  rewrite rotation_storage, Hr, Hst. cbn [outcome trace].
  by rewrite rotation_dispatched, Hst.
Qed.

Lemma rotation_without_auth_failure_witness :
  let resp := mkResponse (mkUrl Guidance_Base_URL "/health" []) 500 (Some "T2") (inr JNull) in
  let r := run (rotate_and_check resp) idle_host signed_in in
  is_auth_failure (status resp) = false /\
  storage r !! "auth_token" = Some "T2" /\
  dispatched (trace r) = [].
Proof.
  cbv zeta. split; [reflexivity|].
  pose proof (rotation_without_auth_failure idle_host
                (mkResponse (mkUrl Guidance_Base_URL "/health" []) 500 (Some "T2") (inr JNull))
                signed_in eq_refl) as (_ & Hs & Hd).
  split; [|exact Hd]. cbv zeta in Hs. rewrite Hs. reflexivity.
Defined.

(** X4: the only key of [localStorage] that an operation of the module
    ever writes or removes is auth_token: every other key holds after the
    call what it held before, whatever the network answers. *)
Theorem operations_touch_only_the_token h ls k :
  k <> "auth_token" ->
  storage (run fetchUserEmailFromProfile h ls) !! k = ls !! k /\
  (forall message sessionId guidanceFilter onlyUseRuh,
     storage (run (sendMessage message sessionId guidanceFilter onlyUseRuh) h ls) !! k
     = ls !! k) /\
  (forall userId, storage (run (createNewChatSession userId) h ls) !! k = ls !! k) /\
  (forall sessionId messageIndex feedbackType userId,
     storage (run (sendFeedback sessionId messageIndex feedbackType userId) h ls) !! k
     = ls !! k) /\
  (forall sessionId userId,
     storage (run (getChatHistory sessionId userId) h ls) !! k = ls !! k) /\
  storage (run healthCheck h ls) !! k = ls !! k /\
  (forall userId, storage (run (getChatSessions userId) h ls) !! k = ls !! k) /\
  (forall sessionId userId,
     storage (run (routeLatest sessionId userId) h ls) !! k = ls !! k).
Proof.
  intros Hk. repeat split; intros.
  - by rewrite lookup_run.
  - destruct (isUndergraduate h (resolved_identity h ls)) eqn:Hug.
    + rewrite (sendMessage_undergraduate_run _ _ _ _ _ _ Hug). cbn [storage].
      by apply after_arrival_frame.
    + rewrite (sendMessage_non_undergraduate_run _ _ _ _ _ _ Hug). cbn [storage].
      destruct (ugc_selected onlyUseRuh), (ruh_selected onlyUseRuh); unfold id;
        rewrite ?after_arrival_frame; done.
  - rewrite createNewChatSession_run. by apply after_arrival_frame.
  - rewrite sendFeedback_run. by apply after_arrival_frame.
  - rewrite getChatHistory_run. by apply after_arrival_frame.
  - rewrite healthCheck_run. by apply after_arrival_frame.
  - rewrite getChatSessions_run. by apply after_arrival_frame.
  - rewrite routeLatest_run. by apply after_arrival_frame.
Qed.

Lemma operations_touch_only_the_token_witness :
  "theme" <> "auth_token" /\
  storage (run (sendMessage "hello" None None None) rotating_host themed) !! "theme"
  = Some "dark".
Proof.
  assert (Hk : "theme" <> "auth_token") by (by vm_compute).
  split; [exact Hk|].
  pose proof (operations_touch_only_the_token rotating_host themed "theme" Hk)
    as (_ & H & _).
  rewrite H. reflexivity.
Defined.

(** ** Reading the traces of the operations *)

Lemma console_errors_app tr1 tr2 :
  console_errors (tr1 ++ tr2) = console_errors tr1 ++ console_errors tr2.
Proof. apply omap_app. Qed.

Lemma body_reads_app tr1 tr2 : body_reads (tr1 ++ tr2) = body_reads tr1 ++ body_reads tr2.
Proof. apply omap_app. Qed.

Lemma console_errors_handling tr : Forall handling_event tr -> console_errors tr = [].
Proof. induction 1 as [|[] tr He _ IH]; simpl in *; done. Qed.

Lemma body_reads_handling tr : Forall handling_event tr -> body_reads tr = [].
Proof. induction 1 as [|[] tr He _ IH]; simpl in *; done. Qed.

Lemma console_errors_lookup h ls :
  console_errors (trace (run fetchUserEmailFromProfile h ls)) = [].
Proof. induction (lookup_quiet h ls) as [|[] tr He _ IH]; simpl in *; done. Qed.

Lemma dispatched_lookup h ls :
  dispatched (trace (run fetchUserEmailFromProfile h ls)) = [].
Proof. induction (lookup_quiet h ls) as [|[] tr He _ IH]; simpl in *; done. Qed.

Lemma console_errors_arrival h req : console_errors (arrival_events h req) = [].
Proof.
  unfold arrival_events. simpl. destruct (network h req); [done|].
  apply console_errors_handling, rotation_events_handling.
Qed.

Lemma body_reads_arrival h req : body_reads (arrival_events h req) = [].
Proof.
  unfold arrival_events. simpl. destruct (network h req); [done|].
  apply body_reads_handling, rotation_events_handling.
Qed.

Lemma dispatched_arrival h req : dispatched (arrival_events h req) = logout_events h req.
Proof.
  unfold arrival_events, logout_events. simpl.
  destruct (network h req) as [|st tok js]; [done|].
  by rewrite rotation_dispatched.
Qed.

Lemma console_errors_body h req : console_errors (body_events h req) = [].
Proof.
  unfold body_events. destruct (network h req) as [|st ? ?]; [done|]. by destruct (is_ok st).
Qed.

Lemma dispatched_body h req : dispatched (body_events h req) = [].
Proof.
  unfold body_events. destruct (network h req) as [|st ? ?]; [done|]. by destruct (is_ok st).
Qed.

Lemma body_reads_body h req :
  body_reads (body_events h req) =
  match network h req with
  | Responds st _ _ => if is_ok st then [url req] else []
  | Rejects _ => []
  end.
Proof.
  unfold body_events. destruct (network h req) as [|st ? ?]; [done|]. by destruct (is_ok st).
Qed.


Lemma dispatched_logged {A} label (o : Outcome A) : dispatched (logged_events label o) = [].
Proof. by destruct o. Qed.

Lemma body_reads_logged {A} label (o : Outcome A) : body_reads (logged_events label o) = [].
Proof. by destruct o. Qed.


Lemma dispatched_side sel h req :
  dispatched (side_events sel h req) = if sel then logout_events h req else [].
Proof.
  unfold side_events. destruct sel; [|done].
  by rewrite dispatched_app, dispatched_arrival, dispatched_body, app_nil_r.
Qed.

Lemma console_errors_resolve h ls userId : console_errors (resolve_events h ls userId) = [].
Proof. unfold resolve_events. destruct (truthy userId); [done | apply console_errors_lookup]. Qed.

Lemma chat_calls_undergraduate h ls message sessionId guidanceFilter onlyUseRuh :
  isUndergraduate h (resolved_identity h ls) = true ->
  chat_calls (trace (run (sendMessage message sessionId guidanceFilter onlyUseRuh) h ls))
  = [chat_request "/ruh/chat" ls message sessionId (resolved_identity h ls) guidanceFilter].
Proof.
  intros Hug. rewrite (sendMessage_undergraduate_run _ _ _ _ _ _ Hug). cbn [trace].
  rewrite !chat_calls_app, chat_calls_lookup. unfold chat_calls.
  by rewrite fetches_arrival, fetches_body, fetches_logged.
Qed.

(** ** The requests and the log of [sendMessage] *)

(** X5: every chat request of one call of [sendMessage] is a POST with a
    JSON content type whose bearer is the token that was in store when
    the call began, also the UGC request of the combined path, which
    leaves before the RUH answer can rotate the token; and all carry the
    same body: the message, the session id (default when missing), the
    identity that the lookup resolved as user_id, and the guidance filter
    only when it is a non-empty string. *)
Theorem chat_requests_of_one_call h ls message sessionId guidanceFilter onlyUseRuh :
  Forall
    (fun req =>
       method req = POST /\
       headers req = [("Content-Type", "application/json");
                      ("Authorization", Bearer (ls !! "auth_token"))] /\
       authorization req = Some (Bearer (ls !! "auth_token")) /\
       body req = ChatRequest message (default "default" sessionId) (resolved_identity h ls)
                    (if nonempty (text_of guidanceFilter) then guidanceFilter else None))
    (chat_calls (trace (run (sendMessage message sessionId guidanceFilter onlyUseRuh) h ls))).
Proof.
  assert (Hb : forall endpoint,
             body (chat_request endpoint ls message sessionId (resolved_identity h ls)
                     guidanceFilter)
             = ChatRequest message (default "default" sessionId) (resolved_identity h ls)
                 (if nonempty (text_of guidanceFilter) then guidanceFilter else None)).
  { intros. unfold chat_request, postBodyBase_of. cbn [body].
    by destruct guidanceFilter as [[|c s]|]. }
  destruct (isUndergraduate h (resolved_identity h ls)) eqn:Hug.
  - rewrite (chat_calls_undergraduate _ _ _ _ _ _ Hug).
    repeat constructor; apply Hb.
  - rewrite (chat_calls_non_undergraduate _ _ _ _ _ _ Hug).
    destruct onlyUseRuh as [[|]|]; repeat constructor; apply Hb.
Qed.


(** X7: on the undergraduate path nothing is turned into a placeholder:
    a rejected request is thrown on to the caller as it is, and so is the
    error of a success body that does not parse; the body is read only
    when the status is a success. *)
Theorem undergraduate_failures_are_thrown h ls message sessionId guidanceFilter onlyUseRuh :
  isUndergraduate h (resolved_identity h ls) = true ->
  let req := chat_request "/ruh/chat" ls message sessionId (resolved_identity h ls)
               guidanceFilter in
  let r := run (sendMessage message sessionId guidanceFilter onlyUseRuh) h ls in
  (forall e, network h req = Rejects e -> outcome r = Thrown e) /\
  (forall st tok e, network h req = Responds st tok (inl e) -> is_ok st = true ->
     outcome r = Thrown e) /\
  body_reads (trace r)
  = body_reads (trace (run fetchUserEmailFromProfile h ls))
    ++ match network h req with
       | Responds st _ _ => if is_ok st then [url req] else []
       | Rejects _ => []
       end.
Proof.
  intros Hug. cbv zeta.
  rewrite (sendMessage_undergraduate_run _ _ _ _ _ _ Hug). cbn [outcome trace].
  repeat split.
  - intros e Hn. unfold single_outcome. by rewrite Hn.
  - intros st tok e Hn Hok. unfold single_outcome. by rewrite Hn, Hok.
  - by rewrite !body_reads_app, body_reads_arrival, body_reads_body, body_reads_logged,
      app_nil_r.
Qed.

Lemma undergraduate_failures_are_thrown_witness :
  let h := demo_host student (Rejects (Foreign "TypeError: Failed to fetch"))
             (chat_ok "unused" "s2") in
  isUndergraduate h (resolved_identity h signed_in) = true /\
  outcome (run (sendMessage "hello" None None None) h signed_in)
  = Thrown (Foreign "TypeError: Failed to fetch").
Proof.
  cbv zeta. split; [reflexivity|].
  pose proof (undergraduate_failures_are_thrown
                (demo_host student (Rejects (Foreign "TypeError: Failed to fetch"))
                   (chat_ok "unused" "s2"))
                signed_in "hello" None None None eq_refl) as (H & _).
  exact (H _ eq_refl).
Defined.

(** X8: the logout events of one call of [sendMessage] are, in order, one
    per chat response with status 401 or 403: that of the RUH answer,
    then that of the UGC answer, for the sides that were requested; the
    identity lookup never adds one, whatever the auth service answers,
    and a call whose chat responses are no auth failures dispatches
    nothing. *)
Theorem logout_events_of_sendMessage h ls message sessionId guidanceFilter onlyUseRuh :
  let email := resolved_identity h ls in
  let ruhReq := chat_request "/ruh/chat" ls message sessionId email guidanceFilter in
  let ugcReq := chat_request "/ugc/chat" ls message sessionId email guidanceFilter in
  dispatched (trace (run (sendMessage message sessionId guidanceFilter onlyUseRuh) h ls))
  = if isUndergraduate h email then logout_events h ruhReq
    else (if ruh_selected onlyUseRuh then logout_events h ruhReq else [])
         ++ (if ugc_selected onlyUseRuh then logout_events h ugcReq else []).
Proof.
  cbv zeta. destruct (isUndergraduate h (resolved_identity h ls)) eqn:Hug.
  - rewrite (sendMessage_undergraduate_run _ _ _ _ _ _ Hug). cbn [trace].
    by rewrite !dispatched_app, dispatched_lookup, dispatched_arrival, dispatched_body,
      dispatched_logged, !app_nil_r.
  - rewrite (sendMessage_non_undergraduate_run _ _ _ _ _ _ Hug). cbn [trace].
    rewrite !dispatched_app, dispatched_lookup, !dispatched_side.
    by destruct onlyUseRuh as [[|]|].
Qed.

(** X9: on the combined path the last response decides the token: a UGC
    answer that is no auth failure and carries a non-empty
    [x-access-token] leaves that token in store, also after a 401 or 403
    from RUH has removed the old one and dispatched a logout; a UGC answer
    that is an auth failure leaves no token, also after the RUH answer
    rotated it. *)
Theorem last_response_decides_the_token h ls message sessionId guidanceFilter :
  isUndergraduate h (resolved_identity h ls) = false ->
  let email := resolved_identity h ls in
  let ugcReq := chat_request "/ugc/chat" ls message sessionId email guidanceFilter in
  let r := run (sendMessage message sessionId guidanceFilter None) h ls in
  (forall st t js,
     network h ugcReq = Responds st (Some t) js ->
     nonempty t = true -> is_auth_failure st = false ->
     storage r !! "auth_token" = Some t) /\
  (forall st tok js,
     network h ugcReq = Responds st tok js ->
     is_auth_failure st = true -> removeItem_throws h = None ->
     storage r !! "auth_token" = None).
Proof.
  intros Hug. cbv zeta.
  rewrite (sendMessage_non_undergraduate_run _ _ _ _ _ _ Hug).
  cbn [storage ruh_selected ugc_selected]. split.
  - intros st t js Hn Ht Hst. unfold after_arrival at 1. rewrite Hn, rotation_storage.
    cbn [header_x_access_token status truthy text_of default]. rewrite Ht, Hst.
    apply lookup_insert_eq.
  - intros st tok js Hn Hst Hr. unfold after_arrival at 1. rewrite Hn, rotation_storage.
    cbn [header_x_access_token status]. rewrite Hst, Hr. apply lookup_delete_eq.
Qed.

Lemma last_response_decides_the_token_witness :
  let r := run (sendMessage "hello" None None None) rotating_host signed_in in
  isUndergraduate rotating_host (resolved_identity rotating_host signed_in) = false /\
  dispatched (trace r) = [mkCustomEvent "auth:logout" false false 403] /\
  storage r !! "auth_token" = Some "T3".
Proof.
  cbv zeta. split; [reflexivity|]. split; [reflexivity|].
  pose proof (last_response_decides_the_token rotating_host signed_in "hello" None None
                eq_refl) as (H & _).
  exact (H 200%N "T3" _ eq_refl eq_refl eq_refl).
Defined.

(** X10: when both calls of the combined path fail, [sendMessage] still
    returns: the text is the two failure texts under their labels, the
    history is empty and the session id is the caller's. *)
Theorem both_sides_failing h ls message sessionId guidanceFilter :
  isUndergraduate h (resolved_identity h ls) = false ->
  let email := resolved_identity h ls in
  let sid := default "default" sessionId in
  let ruhReq := chat_request "/ruh/chat" ls message sessionId email guidanceFilter in
  let ugcReq := chat_request "/ugc/chat" ls message sessionId email guidanceFilter in
  failed (network h ruhReq) = true -> failed (network h ugcReq) = true ->
  exists t1 t2,
    side_result "RUH" sid (network h ruhReq) = placeholder ("RUH request " +:+ t1) sid /\
    side_result "UGC" sid (network h ugcReq) = placeholder ("UGC request " +:+ t2) sid /\
    outcome (run (sendMessage message sessionId guidanceFilter None) h ls)
    = Returned (JChat (mkChatResponse
                         (Some (labelled_concatenation ("RUH request " +:+ t1)
                                  ("UGC request " +:+ t2)))
                         (Some []) (Some sid))).
Proof.
  intros Hug. cbv zeta. intros Hr Hu.
  assert (Hp : forall side a, failed a = true ->
               exists t, side_result side (default "default" sessionId) a
                         = placeholder (side +:+ " request " +:+ t)
                             (default "default" sessionId)).
  { intros side [e|st tok js]; simpl.
    - intros _. by exists ("error: " +:+ String_ e).
    - destruct (is_ok st); simpl.
      + destruct js as [e|]; [|done]. intros _. by exists ("error: " +:+ String_ e).
      + intros _. by exists ("failed: " +:+ pretty st). }
  destruct (Hp "RUH" _ Hr) as [t1 H1], (Hp "UGC" _ Hu) as [t2 H2].
  exists t1, t2. split; [exact H1|]. split; [exact H2|].
  rewrite (sendMessage_non_undergraduate_run _ _ _ _ _ _ Hug).
  cbn [outcome ruh_selected ugc_selected slot]. rewrite H1, H2.
  rewrite select_or_combine_both by done.
  rewrite combinedResponse_fields. cbn [placeholder get_response get_conversation_history
    get_session_id history_or_empty app]. do 3 f_equal.
  simpl. by destruct (default "default" sessionId).
Qed.

Lemma both_sides_failing_witness :
  let h := demo_host staff (Responds 503 None (inr JNull))
             (Rejects (Foreign "TypeError: Failed to fetch")) in
  isUndergraduate h (resolved_identity h signed_in) = false /\
  outcome (run (sendMessage "hello" (Some "s0") None None) h signed_in)
  = Returned (JChat (mkChatResponse
       (Some ("[RUH]" +:+ LF +:+ "RUH request failed: 503" +:+ LF +:+ LF +:+ "[UGC]" +:+ LF
              +:+ "UGC request error: TypeError: Failed to fetch"))
       (Some []) (Some "s0"))).
Proof.
  cbv zeta. split; [reflexivity|].
  destruct (both_sides_failing
              (demo_host staff (Responds 503 None (inr JNull))
                 (Rejects (Foreign "TypeError: Failed to fetch")))
              signed_in "hello" (Some "s0") None eq_refl eq_refl eq_refl)
    as (t1 & t2 & H1 & H2 & H).
  rewrite H. clear H. vm_compute in H1, H2. simplify_eq. reflexivity.
Defined.

(** ** More on the forwarding operations *)

Lemma fetches_resolve_explicit h ls userId :
  truthy userId = true -> resolve_events h ls userId = [] /\ resolved_user h ls userId = userId.
Proof. unfold resolve_events, resolved_user. by intros ->. Qed.

Lemma append_truthy name v params :
  truthy v = true -> append_if_present name v params = params ++ [(name, text_of v)].
Proof. unfold append_if_present. intros Ht. rewrite Ht. by destruct v. Qed.

(** X11: given a non-empty [userId], [createNewChatSession],
    [getChatHistory], [getChatSessions] and [routeLatest] look nobody up:
    the one request that leaves goes to the guidance service and carries
    that [userId] as user_id, in the body or as the last query parameter.
    An empty [userId] counts as none: the call runs as without one. *)
Theorem explicit_user_skips_the_lookup h ls userId :
  truthy userId = true ->
  (fetches (trace (run (createNewChatSession userId) h ls)) = [session_request ls userId] /\
   user_id_of (session_request ls userId) = userId) /\
  (forall sessionId,
     fetches (trace (run (getChatHistory sessionId userId) h ls))
     = [history_request ls sessionId userId] /\
     searchParams (url (history_request ls sessionId userId))
     = [("user_id", text_of userId)]) /\
  (fetches (trace (run (getChatSessions userId) h ls)) = [sessions_request ls userId] /\
   searchParams (url (sessions_request ls userId)) = [("user_id", text_of userId)]) /\
  (forall sessionId,
     fetches (trace (run (routeLatest sessionId userId) h ls))
     = [route_request h ls sessionId userId] /\
     last (searchParams (url (route_request h ls sessionId userId)))
     = Some ("user_id", text_of userId)) /\
  (run (createNewChatSession (Some EmptyString)) h ls = run (createNewChatSession None) h ls /\
   (forall sessionId,
      run (getChatHistory sessionId (Some EmptyString)) h ls
      = run (getChatHistory sessionId None) h ls) /\
   run (getChatSessions (Some EmptyString)) h ls = run (getChatSessions None) h ls /\
   (forall sessionId,
      run (routeLatest sessionId (Some EmptyString)) h ls
      = run (routeLatest sessionId None) h ls)).
Proof.
  intros Ht. destruct (fetches_resolve_explicit h ls userId Ht) as [He Hu].
  repeat split; try reflexivity; intros.
  - rewrite createNewChatSession_run, He, Hu. cbn [trace].
    by rewrite !fetches_app, fetches_arrival, fetches_body, fetches_logged.
  - rewrite getChatHistory_run, He, Hu. cbn [trace].
    by rewrite !fetches_app, fetches_arrival, fetches_body, fetches_logged.
  - unfold history_request. cbn [url searchParams]. by rewrite append_truthy.
  - rewrite getChatSessions_run, He, Hu. cbn [trace].
    by rewrite !fetches_app, fetches_arrival, fetches_body, fetches_logged.
  - unfold sessions_request. cbn [url searchParams]. by rewrite append_truthy.
  - rewrite routeLatest_run, He, Hu. cbn [trace].
    by rewrite !fetches_app, fetches_arrival, fetches_body, fetches_logged.
  - unfold route_request. cbn [url searchParams]. rewrite append_truthy by done.
    apply last_snoc.
Qed.

Lemma explicit_user_skips_the_lookup_witness :
  truthy (Some "bob@uni.example") = true /\
  fetches (trace (run (getChatHistory (Some "s7") (Some "bob@uni.example")) idle_host
                    signed_in))
  = [mkRequest (mkUrl Guidance_Base_URL "/chat/s7/history" [("user_id", "bob@uni.example")])
       GET [("Authorization", "Bearer T1")] NoBody].
Proof.
  split; [reflexivity|].
  pose proof (explicit_user_skips_the_lookup idle_host signed_in (Some "bob@uni.example")
                eq_refl) as (_ & H & _).
  exact (proj1 (H (Some "s7"))).
Defined.

(** X12: a forwarding operation whose request is answered with a
    non-success status throws the error that carries the status, writes
    it once to the console under its own label, and does not read the
    body of that response. *)
Theorem forwarding_failure_is_thrown_and_logged h ls st :
  is_ok st = false ->
  (forall userId,
     let req := session_request ls (resolved_user h ls userId) in
     answered_with h req st ->
     fails_with st "Error creating new chat session:" req
       (run (createNewChatSession userId) h ls)) /\
  (forall sessionId messageIndex feedbackType userId,
     let req := feedback_request ls sessionId messageIndex feedbackType userId in
     answered_with h req st ->
     fails_with st "Error sending feedback:" req
       (run (sendFeedback sessionId messageIndex feedbackType userId) h ls)) /\
  (forall sessionId userId,
     let req := history_request ls sessionId (resolved_user h ls userId) in
     answered_with h req st ->
     fails_with st "Error getting chat history:" req
       (run (getChatHistory sessionId userId) h ls)) /\
  (answered_with h (health_request ls) st ->
   fails_with st "Error checking health:" (health_request ls) (run healthCheck h ls)) /\
  (forall userId,
     let req := sessions_request ls (resolved_user h ls userId) in
     answered_with h req st ->
     fails_with st "Error getting chat sessions:" req (run (getChatSessions userId) h ls)) /\
  (forall sessionId userId,
     let req := route_request h ls sessionId (resolved_user h ls userId) in
     answered_with h req st ->
     fails_with st "Error routing latest message:" req
       (run (routeLatest sessionId userId) h ls)).
Proof.
  intros Hok. cbv zeta. unfold answered_with, fails_with.
  assert (Hl : forall u userId, base u = Guidance_Base_URL ->
               u ∉ body_reads (resolve_events h ls userId)).
  { intros u userId Hu. unfold resolve_events. destruct (truthy userId); [set_solver|].
    induction (lookup_quiet h ls) as [|[] tr He _ IH]; simpl in *; try done; [set_solver|].
    apply not_elem_of_cons. split; [congruence|done]. }
  assert (Hs : forall req tok js, network h req = Responds st tok js ->
               single_outcome (network h req) = Thrown (HTTP_error st) /\
               body_reads (body_events h req) = []).
  { intros req tok js Hn. rewrite body_reads_body. unfold single_outcome.
    by rewrite Hn, Hok. }
  repeat split; intros;
    match goal with H : exists _ _, _ |- _ => destruct H as (tok & js & Hn) end;
    try destruct (Hs _ _ _ Hn) as [Ho Hb].
  all: try (rewrite ?createNewChatSession_run, ?getChatHistory_run, ?healthCheck_run,
             ?getChatSessions_run, ?routeLatest_run; cbn [outcome trace]; rewrite ?Ho;
            first
              [ done
              | by rewrite !console_errors_app, ?console_errors_resolve,
                  console_errors_arrival, console_errors_body
              | rewrite !body_reads_app, body_reads_arrival, Hb; cbn [logged_events];
                rewrite ?app_nil_r; simpl; rewrite ?app_nil_r;
                first [ by apply Hl | set_solver ] ]).
  all: rewrite sendFeedback_run; cbv zeta; cbn [outcome trace]; rewrite Hn, Hok;
    first
      [ done
      | by rewrite !console_errors_app, console_errors_arrival
      | rewrite !body_reads_app, body_reads_arrival; simpl; set_solver ].
Qed.

Lemma forwarding_failure_is_thrown_and_logged_witness :
  let r := run healthCheck expired_host signed_in in
  is_ok 403 = false /\
  answered_with expired_host (health_request signed_in) 403 /\
  outcome r = Thrown (JsError "HTTP error! status: 403") /\
  console_errors (trace r) = [("Error checking health:", JsError "HTTP error! status: 403")].
Proof.
  cbv zeta. split; [reflexivity|].
  assert (Ha : answered_with expired_host (health_request signed_in) 403).
  { exists (Some "T2"), (inr JNull). reflexivity. }
  split; [exact Ha|].
  pose proof (forwarding_failure_is_thrown_and_logged expired_host signed_in 403 eq_refl)
    as (_ & _ & _ & H & _).
  destruct (H Ha) as (Ho & Hc & _). split; [exact Ho | exact Hc].
Defined.

(** X13: [sendFeedback] sends the [userId] it was given, without looking
    anybody up; it never reads the body of the response, and on any
    success status it returns nothing, whatever the body holds. *)
Theorem sendFeedback_ignores_the_body h ls sessionId messageIndex feedbackType userId :
  let req := feedback_request ls sessionId messageIndex feedbackType userId in
  let r := run (sendFeedback sessionId messageIndex feedbackType userId) h ls in
  fetches (trace r) = [req] /\
  user_id_of req = userId /\
  body_reads (trace r) = [] /\
  (forall st tok js, network h req = Responds st tok js -> is_ok st = true ->
     outcome r = Returned tt /\ console_errors (trace r) = []).
Proof.
  cbv zeta. rewrite sendFeedback_run. cbv zeta. cbn [outcome trace].
  split; [|split; [|split]].
  - by rewrite !fetches_app, fetches_arrival, fetches_logged.
  - reflexivity.
  - by rewrite !body_reads_app, body_reads_arrival, body_reads_logged.
  - intros st tok js Hn Hok. rewrite Hn, Hok. split; [done|].
    by rewrite !console_errors_app, console_errors_arrival.
Qed.

(** X14: [routeLatest] classifies the user it sends, the [userId] it was
    given or else the identity looked up, and posts to /ruh/chat/route
    for an undergraduate and to /ugc/chat/route otherwise; the query
    holds the session id first, default when the argument is missing and
    left out when it is the empty string, then the user_id when there is
    one. *)
Theorem routeLatest_request h ls sessionId userId :
  let user := resolved_user h ls userId in
  exists req,
    fetches (trace (run (routeLatest sessionId userId) h ls))
    = fetches (resolve_events h ls userId) ++ [req] /\
    method req = POST /\ base (url req) = Guidance_Base_URL /\
    path (url req) = (if isUndergraduate h user then "/ruh/chat/route"
                      else "/ugc/chat/route") /\
    searchParams (url req)
    = match sessionId with
      | None => [("session_id", "default")]
      | Some s => if nonempty s then [("session_id", s)] else []
      end
      ++ (if truthy user then [("user_id", text_of user)] else []) /\
    body req = NoBody.
Proof.
  cbv zeta. exists (route_request h ls sessionId (resolved_user h ls userId)).
  rewrite routeLatest_run. cbn [trace].
  repeat split.
  - by rewrite !fetches_app, fetches_arrival, fetches_body, fetches_logged, !app_nil_r.
  - unfold route_request. cbn [url path]. by destruct (isUndergraduate h _).
  - unfold route_request, append_if_present. cbn [url searchParams].
    destruct sessionId as [s|]; simpl; [destruct (nonempty s)|];
      destruct (resolved_user h ls userId) as [u|]; simpl;
      try destruct (nonempty u); done.
Qed.

(** X15: with no token in store, or an empty one, [sendMessage] sends
    nothing to the auth service: the identity is null, the role
    classifier is asked about null, and every request that leaves is a
    chat request whose user_id is null. *)
Theorem sendMessage_without_token h ls message sessionId guidanceFilter onlyUseRuh :
  truthy (ls !! "auth_token") = false ->
  let r := run (sendMessage message sessionId guidanceFilter onlyUseRuh) h ls in
  resolved_identity h ls = None /\
  fetches (trace r) = chat_calls (trace r) /\
  Forall (fun req => base (url req) = Guidance_Base_URL /\ user_id_of req = None)
    (fetches (trace r)) /\
  chat_calls (trace r)
  = if isUndergraduate h None
    then [chat_request "/ruh/chat" ls message sessionId None guidanceFilter]
    else (if ruh_selected onlyUseRuh
          then [chat_request "/ruh/chat" ls message sessionId None guidanceFilter] else [])
         ++ (if ugc_selected onlyUseRuh
             then [chat_request "/ugc/chat" ls message sessionId None guidanceFilter]
             else []).
Proof.
  intros Ht. cbv zeta.
  assert (Hid : resolved_identity h ls = None).
  { unfold resolved_identity. by rewrite (lookup_without_token_run h ls Ht). }
  assert (Hf : fetches (trace (run (sendMessage message sessionId guidanceFilter
                                      onlyUseRuh) h ls))
               = if isUndergraduate h None
                 then [chat_request "/ruh/chat" ls message sessionId None guidanceFilter]
                 else (if ruh_selected onlyUseRuh
                       then [chat_request "/ruh/chat" ls message sessionId None
                               guidanceFilter] else [])
                      ++ (if ugc_selected onlyUseRuh
                          then [chat_request "/ugc/chat" ls message sessionId None
                                  guidanceFilter] else [])).
  { destruct (isUndergraduate h None) eqn:Hug; rewrite <- Hid in Hug.
    - rewrite (sendMessage_undergraduate_run _ _ _ _ _ _ Hug). cbn [trace].
      rewrite Hid, (lookup_without_token_run h ls Ht). cbn [trace].
      by rewrite !fetches_app, fetches_arrival, fetches_body, fetches_logged.
    - rewrite (sendMessage_non_undergraduate_run _ _ _ _ _ _ Hug). cbn [trace].
      rewrite Hid, (lookup_without_token_run h ls Ht). cbn [trace].
      rewrite !fetches_app, !fetches_side.
      by destruct onlyUseRuh as [[|]|]. }
  split; [exact Hid|].
  assert (Hc : chat_calls (trace (run (sendMessage message sessionId guidanceFilter
                                         onlyUseRuh) h ls))
               = fetches (trace (run (sendMessage message sessionId guidanceFilter
                                        onlyUseRuh) h ls))).
  { unfold chat_calls. rewrite Hf.
    destruct (isUndergraduate h None); [done|]. by destruct onlyUseRuh as [[|]|]. }
  split; [by rewrite Hc|]. split; [|by rewrite Hc].
  rewrite Hf. destruct (isUndergraduate h None); [by repeat constructor|].
  destruct onlyUseRuh as [[|]|]; by repeat constructor.
Qed.

Lemma sendMessage_without_token_witness :
  let r := run (sendMessage "hello" None None (Some false)) idle_host signed_out in
  truthy (signed_out !! "auth_token") = false /\
  fetches (trace r) = [chat_request "/ugc/chat" signed_out "hello" None None None] /\
  user_id_of (chat_request "/ugc/chat" signed_out "hello" None None None) = None.
Proof.
  cbv zeta. split; [reflexivity|].
  pose proof (sendMessage_without_token idle_host signed_out "hello" None None (Some false)
                eq_refl) as (_ & H1 & _ & H2).
  split; [|reflexivity]. rewrite H1, H2. reflexivity.
Defined.
